(** * EsProcessing: dumping and restoring Elasticsearch mappings and documents

    A shallow embedding of [EsProcessing.py].  Python values that come out of
    [json.load] / [resp.json()] are a small inductive type, dictionaries are
    association lists in insertion order, exceptions are an inductive type,
    and the methods that talk to the cluster or to the disk are functions in
    a state-and-exception monad over an explicit world. *)

From Stdlib Require Import String Ascii List ZArith Bool Lia Floats DecimalString FinFun.
Import ListNotations.
Open Scope list_scope.
Open Scope string_scope.

Set Implicit Arguments.

(** ** Python values *)

(** What [json.loads] can return, plus nothing else: the program never builds
    a value of another type except the strings it formats itself. *)
#[warnings="-register-all"] Inductive value : Type :=
| VNone
| VBool (b : bool)
| VInt (z : Z)
| VFloat (f : float)
| VStr (s : string)
| VList (l : list value)
| VDict (d : list (string * value)).

(** [type(v).__name__], as it appears in the interpreter's messages. *)
Definition type_name_of (v : value) : string :=
  match v with
  | VNone => "NoneType"
  | VBool _ => "bool"
  | VInt _ => "int"
  | VFloat _ => "float"
  | VStr _ => "str"
  | VList _ => "list"
  | VDict _ => "dict"
  end.

(** [bool(v)]: the test behind [if v], [not v] and [x and y]. *)
Definition truthy (v : value) : bool :=
  match v with
  | VNone => false
  | VBool b => b
  | VInt z => negb (Z.eqb z 0)
  | VFloat f => negb (PrimFloat.eqb f 0%float)
  | VStr s => negb (String.eqb s "")
  | VList l => match l with [] => false | _ :: _ => true end
  | VDict d => match d with [] => false | _ :: _ => true end
  end.

(** An optional string argument ([index_name=None], [dirname=None]). *)
Definition of_opt (o : option string) : value :=
  match o with
  | Some s => VStr s
  | None => VNone
  end.

(** ** Exceptions *)

Inductive exn : Type :=
| AttributeError (msg : string)
| IOError (msg : string)
| KeyError (key : value)
| TypeError
| IndexError
| OtherError (name msg : string).

Inductive result (A : Type) : Type :=
| Ok (a : A)
| Raise (e : exn).

Arguments Ok {A} a.
Arguments Raise {A} e.

Definition rbind {A B} (r : result A) (k : A -> result B) : result B :=
  match r with
  | Ok a => k a
  | Raise e => Raise e
  end.

Declare Scope result_scope.
Delimit Scope result_scope with result.
Notation "x <- r ;; k" := (rbind r (fun x => k))
  (at level 61, r at next level, right associativity) : result_scope.

(** The interpreter's message for a missing attribute. *)
Definition no_attribute (v : value) (attr : string) : exn :=
  AttributeError ("'" ++ type_name_of v ++ "' object has no attribute '" ++ attr ++ "'").

(** ** Strings *)

Definition dot : ascii := "."%char.
Definition slash : ascii := "/"%char.

(** [s.endswith(suf)] *)
Fixpoint endswith (s suf : string) : bool :=
  if String.eqb s suf then true
  else match s with
       | EmptyString => false
       | String _ s' => endswith s' suf
       end.

(** [s.startswith(p)] *)
Definition startswith (s p : string) : bool := String.prefix p s.

(** [sub in s] for two strings. *)
Fixpoint contains_sub (s sub : string) : bool :=
  if String.prefix sub s then true
  else match s with
       | EmptyString => false
       | String _ s' => contains_sub s' sub
       end.

(** [s.lstrip('.')] *)
Fixpoint lstrip_dot (s : string) : string :=
  match s with
  | EmptyString => EmptyString
  | String c s' => if Ascii.eqb c dot then lstrip_dot s' else s
  end.

(** [s.rstrip('.')] *)
Fixpoint rstrip_dot (s : string) : string :=
  match s with
  | EmptyString => EmptyString
  | String c s' =>
      match rstrip_dot s' with
      | EmptyString => if Ascii.eqb c dot then EmptyString else String c EmptyString
      | r => String c r
      end
  end.

(** [s.strip('.')] *)
Definition strip_dot (s : string) : string := rstrip_dot (lstrip_dot s).

(** [s.split('.')], which is also [s.rsplit('.')] when no [maxsplit] is
    given. *)
Fixpoint split_dot (s : string) : list string :=
  match s with
  | EmptyString => [EmptyString]
  | String c s' =>
      if Ascii.eqb c dot then EmptyString :: split_dot s'
      else match split_dot s' with
           | h :: t => String c h :: t
           | [] => [String c EmptyString]
           end
  end.

(** [sep.join(items)]: every item has to be a [str]. *)
Fixpoint all_strs (items : list value) : result (list string) :=
  match items with
  | [] => Ok []
  | VStr s :: rest => (ss <- all_strs rest ;; Ok (s :: ss))%result
  | _ :: _ => Raise TypeError
  end.

Definition str_join (sep : string) (items : list value) : result string :=
  (ss <- all_strs items ;; Ok (String.concat sep ss))%result.

(** Decimal digits of an [int]. *)
Definition str_of_int (z : Z) : string := NilZero.string_of_int (Z.to_int z).

(** ** [os.path] (POSIX flavour) *)

(** [os.path.join(a, b)] *)
Definition path_join (a b : string) : string :=
  if startswith b "/" then b
  else if String.eqb a "" || endswith a "/" then a ++ b
  else a ++ "/" ++ b.

(** Position of the last dot that is preceded, inside the last path
    component, by a character that is not a dot: where [os.path.splitext]
    cuts.  [seen] says whether such a character has been met since the last
    slash. *)
Fixpoint ext_cut (s : string) (pos : nat) (seen : bool) (cut : option nat) : option nat :=
  match s with
  | EmptyString => cut
  | String c s' =>
      if Ascii.eqb c slash then ext_cut s' (S pos) false None
      else if Ascii.eqb c dot then ext_cut s' (S pos) seen (if seen then Some pos else cut)
      else ext_cut s' (S pos) true cut
  end.

(** [os.path.splitext(p)] *)
Definition splitext (p : string) : string * string :=
  match ext_cut p 0 false None with
  | Some i => (substring 0 i p, substring i (String.length p - i) p)
  | None => (p, EmptyString)
  end.

(** ** Operations on values *)

(** Dictionaries keep their insertion order; a key occurs once, and a lookup
    takes its binding. *)
Fixpoint dict_lookup (d : list (string * value)) (k : string) : option value :=
  match d with
  | [] => None
  | (k', v) :: rest => if String.eqb k' k then Some v else dict_lookup rest k
  end.

Definition dict_keys (d : list (string * value)) : list string := map fst d.

(** Characters of a string, each as a one-character string. *)
Fixpoint chars (s : string) : list string :=
  match s with
  | EmptyString => []
  | String c s' => String c EmptyString :: chars s'
  end.

(** Sequence indexing, negative indices counting from the end. *)
Definition seq_index {A} (l : list A) (z : Z) : result A :=
  let n := Z.of_nat (List.length l) in
  let i := if Z.ltb z 0 then (z + n)%Z else z in
  if Z.ltb i 0 then Raise IndexError
  else match nth_error l (Z.to_nat i) with
       | Some a => Ok a
       | None => Raise IndexError
       end.

(** [c[k]] *)
Definition py_getitem (c k : value) : result value :=
  match c with
  | VDict d =>
      match k with
      | VStr s => match dict_lookup d s with
                  | Some v => Ok v
                  | None => Raise (KeyError k)
                  end
      | VList _ | VDict _ => Raise TypeError
      | _ => Raise (KeyError k)
      end
  | VList l =>
      match k with
      | VInt z => seq_index l z
      | VBool b => seq_index l (if b then 1%Z else 0%Z)
      | _ => Raise TypeError
      end
  | VStr s =>
      match k with
      | VInt z => (ch <- seq_index (chars s) z ;; Ok (VStr ch))%result
      | VBool b => (ch <- seq_index (chars s) (if b then 1%Z else 0%Z) ;; Ok (VStr ch))%result
      | _ => Raise TypeError
      end
  | _ => Raise TypeError
  end.

(** [v.get(key)]: only dictionaries have the method. *)
Definition py_get (v : value) (key : string) : result value :=
  match v with
  | VDict d => match dict_lookup d key with
               | Some x => Ok x
               | None => Ok VNone
               end
  | _ => Raise (no_attribute v "get")
  end.

(** The items a [for] loop over [v] visits. *)
Definition py_iter (v : value) : result (list value) :=
  match v with
  | VList l => Ok l
  | VDict d => Ok (map VStr (dict_keys d))
  | VStr s => Ok (map VStr (chars s))
  | _ => Raise TypeError
  end.

(** [v == key] for a string [key]. *)
Definition eq_str (key : string) (v : value) : bool :=
  match v with
  | VStr s => String.eqb s key
  | _ => false
  end.

(** [key in v] for a string [key]. *)
Definition py_contains (key : string) (v : value) : result bool :=
  match v with
  | VDict d => Ok (existsb (String.eqb key) (dict_keys d))
  | VList l => Ok (existsb (eq_str key) l)
  | VStr s => Ok (contains_sub s key)
  | _ => Raise TypeError
  end.

(** [v is None] *)
Definition is_none (v : value) : bool :=
  match v with
  | VNone => true
  | _ => false
  end.

(** ** The environment: cluster and disk *)

(** What the program observes of the outside world.  [http_get] is
    [session.get(url).json()] and [http_put] is [session.put(url, json=body)]
    read through [status_code] and [text]; both may raise (connection
    errors, a body that is not JSON).  [open_w] is [open(fp, 'w')],
    [json_dump] the [json.dump] into the file just opened, which may raise
    (an encoding error, a full disk) and then leaves the disk as the failed
    write made it, [read_json] is [open(fp)] followed by [json.load]. *)
Record Env : Type := {
  Server : Type;
  Disk : Type;
  http_get : string -> Server -> result value * Server;
  http_put : string -> value -> Server -> result (Z * string) * Server;
  path_exists : string -> Disk -> bool;
  os_walk : string -> Disk -> list (string * list string * list string);
  open_w : string -> Disk -> result unit * Disk;
  json_dump : string -> value -> Disk -> result unit * Disk;
  read_json : string -> Disk -> result value
}.

(** Requests and file operations, in the order they happen. *)
Inductive event : Type :=
| Get (url : string) (resp : result value)
| Put (url : string) (body : value) (resp : result (Z * string))
| OpenW (fp : string)
| Dump (fp : string) (content : value)
| Load (fp : string).

(** The instance attributes set by [__init__]. *)
Record Config : Type := {
  uri : string;
  index_name : option string;
  dirname : option string
}.

(** ** Path builder *)

(** [[i.strip('.') for i in args if i]] *)
Fixpoint strip_args (args : list value) : result (list string) :=
  match args with
  | [] => Ok []
  | a :: rest =>
      if truthy a then
        match a with
        | VStr s => (ss <- strip_args rest ;; Ok (strip_dot s :: ss))%result
        | _ => Raise (no_attribute a "strip")
        end
      else strip_args rest
  end.

(** [make_fp(path, *args, ext='.json')].  [os.path.join] refuses [None]. *)
Definition make_fp (path : option string) (args : list value) (ext : string) : result string :=
  (parts <- strip_args args ;;
   let fp := String.concat "." parts in
   match path with
   | Some p => Ok (path_join p fp ++ ext)
   | None => Raise TypeError
   end)%result.

Definition default_ext : string := ".json".

(** The type name the directory scan of [upload] reads off a file name:
    [os.path.splitext(f)[0].rsplit('.')[1]]. *)
Definition scanned_type (f : string) : result string :=
  match nth_error (split_dot (fst (splitext f))) 1 with
  | Some t => Ok t
  | None => Raise IndexError
  end.

(** [excludes] of [query_mappings]. *)
Definition excludes : list string := ["_default_"; "_all"; "properties"].

(** [m in excludes] *)
Definition in_excludes (m : value) : bool :=
  match m with
  | VStr s => existsb (String.eqb s) excludes
  | _ => false
  end.

(** The dictionary [query_mappings] yields. *)
Definition mapping_record (i m schema : value) : value :=
  VDict [("index", i); ("type", m); ("schema", schema)].

(** What a generator has done when it stops: the items it yielded and, when
    it stopped on an exception, that exception. *)
Record run (A : Type) : Type := {
  yielded : list A;
  ending : option exn
}.

Definition run_done {A} : run A := {| yielded := []; ending := None |}.
Definition run_fail {A} (e : exn) : run A := {| yielded := []; ending := Some e |}.
Definition run_yield {A} (a : A) (r : run A) : run A :=
  {| yielded := a :: yielded r; ending := ending r |}.

(** One run after another; the second never starts when the first raised. *)
Definition run_seq {A} (r1 r2 : run A) : run A :=
  match ending r1 with
  | Some e => r1
  | None => {| yielded := (yielded r1 ++ yielded r2)%list; ending := ending r2 |}
  end.

(** The inner loop of [query_mappings]: [for m in mappings]. *)
Fixpoint type_records (i mappings : value) (ms : list value) : run value :=
  match ms with
  | [] => run_done
  | m :: rest =>
      if in_excludes m then type_records i mappings rest
      else
        match (x <- py_getitem mappings m ;; py_get x "properties")%result with
        | Ok schema => run_yield (mapping_record i m schema) (type_records i mappings rest)
        | Raise e => run_fail e
        end
  end.

(** The outer loop of [query_mappings]: [for i in data]. *)
Fixpoint index_records (data : value) (idxs : list value) : run value :=
  match idxs with
  | [] => run_done
  | i :: rest =>
      match (entry <- py_getitem data i ;;
             mappings <- py_getitem entry (VStr "mappings") ;;
             ms <- py_iter mappings ;;
             Ok (mappings, ms))%result with
      | Ok (mappings, ms) => run_seq (type_records i mappings ms) (index_records data rest)
      | Raise e => run_fail e
      end
  end.

(** The body of [query_mappings] once [query_from_url] has returned
    [data]. *)
Definition mapping_records (data : value) : run value :=
  match py_iter data with
  | Ok idxs => index_records data idxs
  | Raise e => run_fail e
  end.

(** [if not uri.endswith('/'): uri += '/'] *)
Definition with_slash (uri : string) : string :=
  if endswith uri "/" then uri else uri ++ "/".

(** ** The program *)

Section Program.

(** [str()] of a float, a list or a dictionary.  The program only ever
    formats such a value into a query string or a message; no property
    below depends on what the text is. *)
Variable py_repr : value -> string.

Variable E : Env.

(** [str(v)], as [str.format] applies it to a field without a format
    spec. *)
Definition py_str (v : value) : string :=
  match v with
  | VNone => "None"
  | VBool true => "True"
  | VBool false => "False"
  | VInt z => str_of_int z
  | VStr s => s
  | _ => py_repr v
  end.

(** ['{0}={1}'.format(k, v)] *)
Definition format_param (kv : string * value) : string :=
  fst kv ++ "=" ++ py_str (snd kv).

(** [make_url(uri, *path, **params)]; keyword arguments keep the order of
    the call. *)
Definition make_url (uri : string) (path : list value) (params : list (string * value))
  : result string :=
  let uri := with_slash uri in
  (path <- str_join "/" (filter truthy path) ;;
   let params := String.concat "&" (map format_param params) in
   if String.eqb params "" then Ok (uri ++ path)
   else Ok (uri ++ path ++ "?" ++ params))%result.

(** *** World and monad *)

Record World : Type := {
  server : Server E;
  disk : Disk E;
  trace : list event
}.

Definition log (e : event) (w : World) : World :=
  {| server := server w; disk := disk w; trace := (trace w ++ [e])%list |}.

(** A computation returns, raises, or (the scroll loop only) is still
    running when its fuel is spent: [None]. *)
Definition M (A : Type) : Type := World -> option (result A * World).

Definition ret {A} (a : A) : M A := fun w => Some (Ok a, w).
Definition raise {A} (e : exn) : M A := fun w => Some (Raise e, w).
Definition lift {A} (r : result A) : M A := fun w => Some (r, w).

Definition bind {A B} (m : M A) (k : A -> M B) : M B :=
  fun w =>
    match m w with
    | Some (Ok a, w') => k a w'
    | Some (Raise e, w') => Some (Raise e, w')
    | None => None
    end.

Declare Scope monad_scope.
Delimit Scope monad_scope with monad.
Notation "x <- m ;; k" := (bind m (fun x => k))
  (at level 61, m at next level, right associativity) : monad_scope.
Notation "m ;;; k" := (bind m (fun _ => k))
  (at level 61, right associativity) : monad_scope.

(** [try: body / except Exception: handler]; every exception of the model
    is an [Exception]. *)
Definition try_except {A} (body : M A) (handler : exn -> M A) : M A :=
  fun w =>
    match body w with
    | Some (Raise e, w') => handler e w'
    | other => other
    end.

(** A [for] loop whose body has effects. *)
Fixpoint for_each {A} (items : list A) (body : A -> M unit) : M unit :=
  match items with
  | [] => ret tt
  | x :: rest => (body x ;;; for_each rest body)%monad
  end.

(** *** Primitive effects *)

Definition session_get (url : string) : M value :=
  fun w =>
    let (r, s) := http_get E url (server w) in
    Some (r, {| server := s; disk := disk w; trace := (trace w ++ [Get url r])%list |}).

Definition session_put (url : string) (body : value) : M (Z * string) :=
  fun w =>
    let (r, s) := http_put E url body (server w) in
    Some (r, {| server := s; disk := disk w; trace := (trace w ++ [Put url body r])%list |}).

Definition os_path_exists (fp : string) : M bool :=
  fun w => Some (Ok (path_exists E fp (disk w)), w).

Definition walk (dir : string) : M (list (string * list string * list string)) :=
  fun w => Some (Ok (os_walk E dir (disk w)), w).

Definition file_open_w (fp : string) : M unit :=
  fun w =>
    let (r, d) := open_w E fp (disk w) in
    Some (r, {| server := server w; disk := d; trace := (trace w ++ [OpenW fp])%list |}).

Definition file_dump (fp : string) (content : value) : M unit :=
  fun w =>
    let (r, d) := json_dump E fp content (disk w) in
    Some (r, {| server := server w; disk := d;
                trace := (trace w ++ [Dump fp content])%list |}).

Definition file_load (fp : string) : M value :=
  fun w => Some (read_json E fp (disk w), log (Load fp) w).

(** *** Generators *)

(** A generator with effects: the items yielded so far travel with the
    state. *)
Definition Gen (A : Type) : Type := World -> option (list value * result A * World).

Definition gret {A} (a : A) : Gen A := fun w => Some ([], Ok a, w).
Definition glift {A} (m : M A) : Gen A :=
  fun w =>
    match m w with
    | Some (r, w') => Some ([], r, w')
    | None => None
    end.
Definition yield_all (items : list value) : Gen unit := fun w => Some (items, Ok tt, w).

Definition gbind {A B} (g : Gen A) (k : A -> Gen B) : Gen B :=
  fun w =>
    match g w with
    | Some (ys, Ok a, w') =>
        match k a w' with
        | Some (ys', r, w'') => Some ((ys ++ ys')%list, r, w'')
        | None => None
        end
    | Some (ys, Raise e, w') => Some (ys, Raise e, w')
    | None => None
    end.

Declare Scope gen_scope.
Delimit Scope gen_scope with gen.
Notation "x <- g ;; k" := (gbind g (fun x => k))
  (at level 61, g at next level, right associativity) : gen_scope.
Notation "g ;;; k" := (gbind g (fun _ => k))
  (at level 61, right associativity) : gen_scope.

(** [data = []; for x in g: data.append(x)]: the consumer has no effect of
    its own between two items, and loses them all when [g] raises. *)
Definition drain (g : Gen unit) : M (list value) :=
  fun w =>
    match g w with
    | Some (ys, Ok _, w') => Some (Ok ys, w')
    | Some (_, Raise e, w') => Some (Raise e, w')
    | None => None
    end.

(** [for x in g: body(x)] for a generator whose effects all come before its
    first item, which is the case of [query_mappings]: the body runs on each
    item in turn, then the exception that ended the generator, if any,
    surfaces. *)
Definition for_gen (g : Gen unit) (body : value -> M unit) : M unit :=
  fun w =>
    match g w with
    | Some (ys, r, w') =>
        (for_each ys body ;;; lift r)%monad w'
    | None => None
    end.

(** *** Mapping reader *)

Variable cfg : Config.

(** The two messages [query_from_url] raises with. *)
Definition InvalidRequest : exn := AttributeError "Invalid url path".
Definition MappingNotFound (idx : value) : exn :=
  AttributeError ("Mapping of index " ++ py_str idx ++ " has not been set").

(** [query_from_url(self, timeout=TIMEOUT)].  The timeout only reaches the
    transport. *)
Definition query_from_url : M value :=
  (url <- lift (make_url (uri cfg) [of_opt (index_name cfg); VStr "_mapping"] []) ;;
   data <- session_get url ;;
   has_error <- lift (py_contains "error" data) ;;
   if has_error : bool then raise InvalidRequest
   else
     let idx := of_opt (index_name cfg) in
     if truthy idx then
       entry <- lift (py_getitem data idx) ;;
       mappings <- lift (py_get entry "mappings") ;;
       if negb (truthy mappings) then raise (MappingNotFound idx)
       else ret data
     else ret data)%monad.

(** [query_mappings(self)] *)
Definition query_mappings : Gen unit :=
  (data <- glift query_from_url ;;
   let r := mapping_records data in
   yield_all (yielded r) ;;;
   match ending r with
   | Some e => glift (raise e)
   | None => gret tt
   end)%gen.

(** *** Scroll reader *)

(** The [while True] loop of [scroll_data]; [fuel] bounds the number of
    continuation requests. *)
Fixpoint scroll_loop (fuel : nat) (uri : string) (scroll scroll_id : value) : Gen unit :=
  match fuel with
  | O => fun _ => None
  | S fuel' =>
      (url <- glift (lift (make_url uri [VStr "_search/scroll"]
                             [("search_type", VStr "scan"); ("scroll", scroll);
                              ("scroll_id", scroll_id)])) ;;
       resp <- glift (session_get url) ;;
       hits <- glift (lift (h <- py_getitem resp (VStr "hits") ;;
                            py_getitem h (VStr "hits"))%result) ;;
       items <- glift (lift (py_iter hits)) ;;
       yield_all items ;;;
       scroll_id' <- glift (lift (py_get resp "_scroll_id")) ;;
       if is_none scroll_id' || negb (truthy hits) then gret tt
       else scroll_loop fuel' uri scroll scroll_id')%gen
  end.

(** [scroll_data(self, uri, index_name, type_name, scroll='1m')] *)
Definition scroll_data (fuel : nat) (uri : string) (index_name type_name scroll : value)
  : Gen unit :=
  (type_url <- glift (lift (make_url uri [index_name; type_name; VStr "_search"]
                              [("scroll", scroll); ("search_type", VStr "scan")])) ;;
   type_resp <- glift (session_get type_url) ;;
   scroll_id <- glift (lift (py_get type_resp "_scroll_id")) ;;
   if is_none scroll_id then gret tt
   else scroll_loop fuel uri scroll scroll_id)%gen.

Definition default_scroll : value := VStr "1m".

(** *** Exporter *)

(** One turn of the loop of [dump_mapping]. *)
Definition dump_one_mapping (i : value) : M unit :=
  (idx <- lift (py_getitem i (VStr "index")) ;;
   ty <- lift (py_getitem i (VStr "type")) ;;
   fp <- lift (make_fp (dirname cfg) [idx; ty; VStr "mapping"] default_ext) ;;
   file_open_w fp ;;;
   schema <- lift (py_getitem i (VStr "schema")) ;;
   file_dump fp (VDict [("properties", schema)]))%monad.

Definition dump_mapping : M unit := for_gen query_mappings dump_one_mapping.

(** One turn of the loop of [dump_data]: the file is opened before the
    scroll starts and written when it is over. *)
Definition dump_one_data (fuel : nat) (i : value) : M unit :=
  (idx <- lift (py_getitem i (VStr "index")) ;;
   ty <- lift (py_getitem i (VStr "type")) ;;
   fp <- lift (make_fp (dirname cfg) [idx; ty] default_ext) ;;
   file_open_w fp ;;;
   data <- drain (scroll_data fuel (uri cfg) idx ty default_scroll) ;;
   file_dump fp (VList data))%monad.

Definition dump_data (fuel : nat) : M unit := for_gen query_mappings (dump_one_data fuel).

(** [self.dirname and os.path.exists(self.dirname)] *)
Definition dir_ready : M bool :=
  match dirname cfg with
  | Some d => if truthy (VStr d) then os_path_exists d else ret false
  | None => ret false
  end.

Definition DirectoryNotFound : exn :=
  IOError ("Dir " ++ py_str (of_opt (dirname cfg)) ++ " does not exist.").

(** [save(self)] *)
Definition save (fuel : nat) : M unit :=
  (ready <- dir_ready ;;
   if negb ready then raise DirectoryNotFound
   else try_except (dump_mapping ;;; dump_data fuel) (fun e => raise e))%monad.

(** *** Importer *)

Definition MappingFileNotFound (type_name : value) : exn :=
  IOError ("Mapping file of " ++ py_str type_name ++ " does not exist.").
Definition DocumentFileNotFound (type_name : value) : exn :=
  IOError ("Document file of " ++ py_str type_name ++ " does not exist.").

(** [upload_mapping(self, type_name)] *)
Definition upload_mapping (type_name : value) : M unit :=
  (url <- lift (make_url (uri cfg) [of_opt (index_name cfg); VStr "_mapping"; type_name] []) ;;
   fp <- lift (make_fp (dirname cfg) [of_opt (index_name cfg); type_name; VStr "mapping"]
                 default_ext) ;;
   found <- os_path_exists fp ;;
   if negb found then raise (MappingFileNotFound type_name)
   else
     body <- file_load fp ;;
     session_put url body ;;;
     ret tt)%monad.

(** One turn of the loop of [upload_data]. *)
Definition upload_document (type_name i : value) : M unit :=
  (type_id <- lift (py_get i "_id") ;;
   type_source <- lift (py_get i "_source") ;;
   url <- lift (make_url (uri cfg) [of_opt (index_name cfg); type_name; type_id]
                  [("op_type", VStr "create")]) ;;
   session_put url type_source ;;;
   ret tt)%monad.

(** [upload_data(self, type_name)] *)
Definition upload_data (type_name : value) : M unit :=
  (fp <- lift (make_fp (dirname cfg) [of_opt (index_name cfg); type_name] default_ext) ;;
   found <- os_path_exists fp ;;
   if negb found then raise (DocumentFileNotFound type_name)
   else
     data <- file_load fp ;;
     items <- lift (py_iter data) ;;
     for_each items (upload_document type_name))%monad.

(** The body of [for f in files] in [upload]. *)
Definition upload_file (f : string) : M unit :=
  if negb (endswith f ".json") then ret tt
  else
    (type_name <- lift (scanned_type f) ;;
     upload_mapping (VStr type_name) ;;;
     upload_data (VStr type_name))%monad.

(** [upload(self, type_name=None)] *)
Definition upload (type_name : value) : M unit :=
  (ready <- dir_ready ;;
   if negb ready then raise DirectoryNotFound
   else
     try_except
       (if truthy type_name then
          upload_mapping type_name ;;; upload_data type_name
        else
          entries <- match dirname cfg with
                     | Some d => walk d
                     | None => raise TypeError
                     end ;;
          for_each entries (fun entry => for_each (snd entry) upload_file))
       (fun e => raise e))%monad.

End Program.

Arguments ret {E A} a _.
Arguments raise {E A} e _.
Arguments lift {E A} r _.

(** ** A scripted cluster and a one-directory disk

    The concrete environment of the examples: the cluster answers a GET
    from a script that sees the URL and the number of requests served so
    far, and accepts every PUT; the disk is one directory of JSON files. *)

Module Demo.

Record dir_disk : Type := {
  dir : string;
  entries : list (string * value)
}.

(** The file name of [fp] inside [d], when [fp] is directly under [d]. *)
Fixpoint under (d fp : string) : option string :=
  match d, fp with
  | EmptyString, String c name => if Ascii.eqb c slash then Some name else None
  | String a d', String b fp' => if Ascii.eqb a b then under d' fp' else None
  | _, EmptyString => None
  end.

Definition exists_in (fp : string) (d : dir_disk) : bool :=
  String.eqb fp (dir d) ||
  match under (dir d) fp with
  | Some name => existsb (String.eqb name) (map fst (entries d))
  | None => false
  end.

Definition load_from (fp : string) (d : dir_disk) : result value :=
  match under (dir d) fp with
  | Some name =>
      match dict_lookup (entries d) name with
      | Some v => Ok v
      | None => Raise (IOError "No such file or directory")
      end
  | None => Raise (IOError "No such file or directory")
  end.

Definition store (fp : string) (v : value) (d : dir_disk) : dir_disk :=
  match under (dir d) fp with
  | Some name =>
      {| dir := dir d;
         entries := (name, v) ::
                    filter (fun kv => negb (String.eqb (fst kv) name)) (entries d) |}
  | None => d
  end.

Definition cluster (script : string -> nat -> result value) : Env :=
  {| Server := nat;
     Disk := dir_disk;
     http_get := fun url n => (script url n, S n);
     http_put := fun _ _ n => (Ok (201%Z, "{}"), S n);
     path_exists := exists_in;
     os_walk := fun top d =>
                  if String.eqb top (dir d) then [(top, [], map fst (entries d))] else [];
     open_w := fun fp d => (Ok tt, store fp VNone d);
     json_dump := fun fp v d => (Ok tt, store fp v d);
     read_json := load_from |}.

(** No text for floats, lists and dictionaries: the examples format
    strings only. *)
Definition no_repr (_ : value) : string := "".

Definition start (script : string -> nat -> result value) (d : dir_disk)
  : World (cluster script) :=
  @Build_World (cluster script) 0%nat d [].

End Demo.

(** ** Vocabulary of the properties *)

(** *** Scroll sessions *)

(** The cursor a response carries, if any. *)
Definition cursor_of (resp : value) : option value :=
  match py_get resp "_scroll_id" with
  | Ok c => if is_none c then None else Some c
  | Raise _ => None
  end.

(** The hit list of a response: [resp['hits']['hits']]. *)
Definition hit_list (resp : value) : result value :=
  (h <- py_getitem resp (VStr "hits") ;; py_getitem h (VStr "hits"))%result.

(** A response after which the scroll is over: no cursor, or an empty hit
    list. *)
Definition exhausted (resp : value) : Prop :=
  cursor_of resp = None \/ exists hits, hit_list resp = Ok hits /\ truthy hits = false.

(** The URL of a continuation request that carries cursor [c]. *)
Definition continuation_url (py_repr : value -> string) (uri : string) (scroll c : value)
  : string :=
  with_slash uri ++ "_search/scroll?search_type=scan&scroll=" ++ py_str py_repr scroll
    ++ "&scroll_id=" ++ py_str py_repr c.

(** The world after a GET that was answered [r] and left the cluster in
    state [s]. *)
Definition after_get {E : Env} (w : World E) (url : string) (r : result value)
  (s : Server E) : World E :=
  {| server := s; disk := disk w; trace := (trace w ++ [Get url r])%list |}.

(** A request and the answer it got. *)
Definition exchange : Type := (string * result value)%type.

Definition get_event (x : exchange) : event := Get (fst x) (snd x).





(** The URLs of the GET requests of a trace. *)
Fixpoint requested (tr : list event) : list string :=
  match tr with
  | [] => []
  | Get url _ :: rest => url :: requested rest
  | _ :: rest => requested rest
  end.

(** *** Uploads *)






(** The world after a PUT of [body] that was answered [r] and left the
    cluster in state [s]. *)
Definition after_put {E : Env} (w : World E) (url : string) (body : value)
  (r : result (Z * string)) (s : Server E) : World E :=
  {| server := s; disk := disk w; trace := (trace w ++ [Put url body r])%list |}.

(** The world after the file [fp] has been read. *)
Definition after_load {E : Env} (w : World E) (fp : string) : World E :=
  {| server := server w; disk := disk w; trace := (trace w ++ [Load fp])%list |}.






(** *** The local directory *)

(** The configured directory is missing: not configured, empty, or not on
    the disk. *)
Definition dir_missing {E : Env} (cfg : Config) (w : World E) : Prop :=
  match dirname cfg with
  | Some d => d = "" \/ path_exists E d (disk w) = false
  | None => True
  end.

Definition dir_present {E : Env} (cfg : Config) (w : World E) : Prop :=
  exists d, dirname cfg = Some d /\ d <> "" /\ path_exists E d (disk w) = true.

(** *** File names *)

Inductive kind : Type := KMapping | KDocument.

(** The path [dump_mapping] / [dump_data] write to and [upload_mapping] /
    [upload_data] read from. *)
Definition file_path (d index type : string) (k : kind) : result string :=
  match k with
  | KMapping => make_fp (Some d) [VStr index; VStr type; VStr "mapping"] default_ext
  | KDocument => make_fp (Some d) [VStr index; VStr type] default_ext
  end.

(** The marker that tells a mapping file from a document file. *)
Definition kind_suffix (k : kind) : string :=
  match k with
  | KMapping => ".mapping"
  | KDocument => ""
  end.

(** [c in s] for a character. *)
Fixpoint has_char (c : ascii) (s : string) : bool :=
  match s with
  | EmptyString => false
  | String a s' => Ascii.eqb a c || has_char c s'
  end.

(** A name that is not empty and has no dot in it. *)
Definition plain (s : string) : Prop := s <> "" /\ has_char dot s = false.

(** *** Mapping records, in the words of the specification *)

(** The exclusion set of the specification. *)
Definition exclusion_set : list string := ["_default_"; "_all"; "properties"].

Definition is_type_key (t : string) : bool := negb (existsb (String.eqb t) exclusion_set).


(** [mappings[type].properties], absent when the type has none. *)
Definition schema_of (ms : list (string * value)) (t : string) : value :=
  match dict_lookup ms t with
  | Some (VDict m) =>
      match dict_lookup m "properties" with
      | Some s => s
      | None => VNone
      end
  | _ => VNone
  end.

(** The mappings object of an index of the raw document. *)
Definition mappings_of (d : list (string * value)) (i : string) : list (string * value) :=
  match dict_lookup d i with
  | Some (VDict e) =>
      match dict_lookup e "mappings" with
      | Some (VDict ms) => ms
      | _ => []
      end
  | _ => []
  end.

(** For each index, for each type key outside the exclusion set, one
    record. *)
Definition spec_mapping_records (d : list (string * value)) : list value :=
  flat_map
    (fun i =>
       map (fun t => mapping_record (VStr i) (VStr t) (schema_of (mappings_of d i) t))
         (filter is_type_key (dict_keys (mappings_of d i))))
    (dict_keys d).

(** The shape of a raw mapping document: every index holds an object with a
    [mappings] object, in which every type outside the exclusion set holds
    an object. *)
Definition raw_mapping_document (d : list (string * value)) : Prop :=
  forall i, In i (dict_keys d) ->
    exists e ms,
      dict_lookup d i = Some (VDict e) /\
      dict_lookup e "mappings" = Some (VDict ms) /\
      forall t, In t (dict_keys ms) -> is_type_key t = true ->
        exists m, dict_lookup ms t = Some (VDict m).


(** *** The mapping query *)

(** The URL of the mapping query: [{uri}/{index}/_mapping], or
    [{uri}/_mapping] when no index is configured. *)
Definition mapping_url (cfg : Config) : string :=
  with_slash (uri cfg) ++
  match index_name cfg with
  | Some i => if String.eqb i "" then "_mapping" else i ++ "/_mapping"
  | None => "_mapping"
  end.

(** An index is configured: [index_name] is a string that counts as
    true. *)
Definition configured (cfg : Config) (i : string) : Prop :=
  index_name cfg = Some i /\ i <> "".

(** No index is configured: [None], or the empty string. *)
Definition unconfigured (cfg : Config) : Prop :=
  index_name cfg = None \/ index_name cfg = Some "".

(** The [mappings] value of an index entry, [None] when absent:
    [entry.get('mappings')]. *)
Definition mappings_value (entry : list (string * value)) : value :=
  match dict_lookup entry "mappings" with
  | Some m => m
  | None => VNone
  end.

(** ** Concrete inputs *)

Module Fixtures.
Import Demo.

(** The [mappings] fixture of [test_ep.py]. *)
Definition test_mappings : list (string * value) :=
  [("test",
    VDict [("mappings",
            VDict [("_default_", VDict []);
                   ("_all", VDict []);
                   ("properties", VDict []);
                   ("data", VDict [("properties",
                                    VDict [("content", VDict []); ("env", VDict [])])])])])].

(** The instance of [test_ep.py], with a directory that exists on the demo
    disk. *)
Definition ep : Config :=
  {| uri := "http://localhost:9200"; index_name := Some "test"; dirname := Some "/tmp/fake" |}.

Definition hit (id : string) : value :=
  VDict [("_id", VStr id); ("_source", VDict [("n", VStr id)])].

(** A search or scroll response. *)
Definition page (cursor : option string) (hits : list value) : value :=
  VDict ((match cursor with
          | Some c => [("_scroll_id", VStr c)]
          | None => []
          end) ++ [("hits", VDict [("hits", VList hits)])])%list.

Definition search_test_data : string :=
  "http://localhost:9200/test/data/_search?scroll=1m&search_type=scan".
Definition scroll_with (c : string) : string :=
  "http://localhost:9200/_search/scroll?search_type=scan&scroll=1m&scroll_id=" ++ c.

(** The session of the three responses: two hits and cursor C1 on the
    initial response, one hit and cursor C2 on the response to C1, no cursor
    on the response to C2. *)
Definition three_responses (url : string) (_ : nat) : result value :=
  if String.eqb url search_test_data then Ok (page (Some "C1") [hit "1"; hit "2"])
  else if String.eqb url (scroll_with "C1") then Ok (page (Some "C2") [hit "3"])
  else if String.eqb url (scroll_with "C2") then Ok (page None [])
  else Raise (OtherError "ConnectionError" url).


(** The cluster answers every request with the same body. *)
Definition always (body : value) (_ : string) (_ : nat) : result value := Ok body.

Definition empty_dir : dir_disk := {| dir := "/tmp/fake"; entries := [] |}.

(** A dump of type [data] of the index named in the source's own example,
    [ems-other_log-2015.09.15]. *)
Definition dated : Config :=
  {| uri := "http://localhost:9200";
     index_name := Some "ems-other_log-2015.09.15";
     dirname := Some "/tmp/fake" |}.

Definition dated_dump : dir_disk :=
  {| dir := "/tmp/fake";
     entries := [("ems-other_log-2015.09.15.data.mapping.json",
                  VDict [("properties", VDict [])]);
                 ("ems-other_log-2015.09.15.data.json", VList [hit "1"])] |}.


(** A document file in which the same id occurs twice. *)
Definition twice_dump : dir_disk :=
  {| dir := "/tmp/fake";
     entries := [("test.data.mapping.json", VDict [("properties", VDict [])]);
                 ("test.data.json", VList [hit "1"; hit "1"])] |}.

(** A disk on which [/tmp/fake] does not exist, as in [test_upload_err]. *)
Definition elsewhere : dir_disk := {| dir := "/var/empty"; entries := [] |}.

End Fixtures.

(** ** Vocabulary of the further properties *)

(** [s] is not the empty string. *)
Definition nonempty (s : string) : bool := negb (String.eqb s "").

(** The query string of a URL: nothing without parameters, otherwise [?]
    and the parameters joined by [&]. *)
Definition query_string (py_repr : value -> string) (params : list (string * value))
  : string :=
  match params with
  | [] => ""
  | _ :: _ => "?" ++ String.concat "&" (map (format_param py_repr) params)
  end.


(** A value that counts as true and is not a string. *)
Definition true_non_string (v : value) : Prop :=
  truthy v = true /\ forall s, v <> VStr s.

(** [{uri}/{index}/_mapping/{type}] *)
Definition put_mapping_url (uri index type : string) : string :=
  with_slash uri ++ index ++ "/_mapping/" ++ type.






(** The scroll pages a cluster serves from cursor [c] in state [s]: each
    page but the last carries a cursor and hits, the last one is exhausted;
    [s'] is the state of the cluster after the last page and [xs] the
    exchanges. *)
Inductive serves (py_repr : value -> string) (E : Env) (uri : string) (scroll : value)
  : value -> Server E -> list (list value) -> list exchange -> Server E -> Prop :=
| serves_last : forall c s kv hits items s',
    http_get E (continuation_url py_repr uri scroll c) s = (Ok (VDict kv), s') ->
    hit_list (VDict kv) = Ok hits ->
    py_iter hits = Ok items ->
    exhausted (VDict kv) ->
    serves py_repr E uri scroll c s [items]
      [(continuation_url py_repr uri scroll c, Ok (VDict kv))] s'
| serves_more : forall c s kv hits items s' c' pages xs s'',
    http_get E (continuation_url py_repr uri scroll c) s = (Ok (VDict kv), s') ->
    hit_list (VDict kv) = Ok hits ->
    py_iter hits = Ok items ->
    cursor_of (VDict kv) = Some c' ->
    truthy hits = true ->
    serves py_repr E uri scroll c' s' pages xs s'' ->
    serves py_repr E uri scroll c s (items :: pages)
      ((continuation_url py_repr uri scroll c, Ok (VDict kv)) :: xs) s''.




(** The name the exporter gives the file of a type: the mapping file or
    the document file. *)
Definition exported_name (i t : string) (k : kind) : string :=
  i ++ "." ++ t ++ kind_suffix k ++ ".json".

(** An index name or type name the directory scan can handle: not empty,
    without dot and without slash. *)
Definition scannable (s : string) : Prop := plain s /\ has_char slash s = false.


(** The scroll pages a cluster serves from cursor [c] in state [s] that all
    carry a cursor and hits: after them the loop holds cursor [c'] and the
    cluster is in state [s']. *)
Inductive passes (py_repr : value -> string) (E : Env) (uri : string) (scroll : value)
  : value -> Server E -> list (list value) -> list exchange -> value -> Server E -> Prop :=
| passes_none : forall c s, passes py_repr E uri scroll c s [] [] c s
| passes_page : forall c s kv hits items s' c' pages xs c'' s'',
    http_get E (continuation_url py_repr uri scroll c) s = (Ok (VDict kv), s') ->
    hit_list (VDict kv) = Ok hits ->
    py_iter hits = Ok items ->
    cursor_of (VDict kv) = Some c' ->
    truthy hits = true ->
    passes py_repr E uri scroll c' s' pages xs c'' s'' ->
    passes py_repr E uri scroll c s (items :: pages)
      ((continuation_url py_repr uri scroll c, Ok (VDict kv)) :: xs) c'' s''.

(** More inputs. *)
Module Samples.
Import Demo.

(** The cluster serves one page of hits and then answers with an error
    body. *)
Definition expired_later (_ : string) (n : nat) : result value :=
  match n with
  | 0 => Ok (Fixtures.page (Some "c") [])
  | 1 => Ok (Fixtures.page (Some "c") [Fixtures.hit "1"; Fixtures.hit "2"])
  | _ => Ok (VDict [("error", VStr "SearchContextMissingException"); ("status", VInt 404)])
  end.





(** A cluster that serves three pages: two hits, one hit, none; the
    cursor stays the same. *)
Definition three_pages (_ : string) (n : nat) : result value :=
  match n with
  | 0 => Ok (Fixtures.page (Some "c") [])
  | 1 => Ok (Fixtures.page (Some "c") [Fixtures.hit "1"; Fixtures.hit "2"])
  | 2 => Ok (Fixtures.page (Some "c") [Fixtures.hit "3"])
  | _ => Ok (Fixtures.page (Some "c") [])
  end.

(** The cluster answers the scroll with an error body. *)
Definition expired (_ : string) (n : nat) : result value :=
  match n with
  | 0 => Ok (Fixtures.page (Some "c") [])
  | _ => Ok (VDict [("error", VStr "SearchContextMissingException"); ("status", VInt 404)])
  end.

(** A document file whose second hit has a number as [_id]. *)
Definition numbered_dump : dir_disk :=
  {| dir := "/tmp/fake";
     entries := [("test.data.json",
                  VList [Fixtures.hit "1";
                         VDict [("_id", VInt 7); ("_source", VDict [])];
                         Fixtures.hit "3"])] |}.

(** A transport that refuses the connection on every GET. *)
Definition refused (url : string) (_ : nat) : result value :=
  Raise (OtherError "ConnectionError" url).

End Samples.

(** * Properties *)

Unset Implicit Arguments.

(** ** Strings *)

Lemma append_assoc (a b c : string) : (a ++ b) ++ c = a ++ b ++ c.
Proof.
  induction a as [|x a IH]; simpl; [reflexivity|].
  now rewrite IH.
Qed.

Lemma append_nil_r (a : string) : a ++ "" = a.
Proof.
  induction a as [|x a IH]; simpl; [reflexivity|].
  now rewrite IH.
Qed.




(** ** The scroll reader *)

Section ScrollProperties.

Variable py_repr : value -> string.
Variable E : Env.

Lemma make_url_continuation (u : string) (sc c : value) :
  make_url py_repr u [VStr "_search/scroll"]
    [("search_type", VStr "scan"); ("scroll", sc); ("scroll_id", c)]
  = Ok (continuation_url py_repr u sc c).
Proof.
  unfold make_url, continuation_url, str_join, format_param. simpl.
  reflexivity.
Qed.

(** One turn of the loop, spelled out. *)
Lemma scroll_loop_step (fuel : nat) (u : string) (sc c : value) (w : World E) :
  scroll_loop py_repr (S fuel) u sc c w =
  let url := continuation_url py_repr u sc c in
  let w1 := after_get w url (fst (http_get E url (server w))) (snd (http_get E url (server w))) in
  match fst (http_get E url (server w)) with
  | Raise e => Some ([], Raise e, w1)
  | Ok resp =>
      match hit_list resp with
      | Raise e => Some ([], Raise e, w1)
      | Ok hits =>
          match py_iter hits with
          | Raise e => Some ([], Raise e, w1)
          | Ok items =>
              match py_get resp "_scroll_id" with
              | Raise e => Some (items, Raise e, w1)
              | Ok c' =>
                  if is_none c' || negb (truthy hits) then Some (items, Ok tt, w1)
                  else match scroll_loop py_repr fuel u sc c' w1 with
                       | Some (ys, r, w2) => Some ((items ++ ys)%list, r, w2)
                       | None => None
                       end
              end
          end
      end
  end.
Proof.
  cbn [scroll_loop]. unfold gbind, glift, lift, yield_all, gret, session_get.
  rewrite make_url_continuation. unfold hit_list, after_get.
  destruct (http_get E (continuation_url py_repr u sc c) (server w)) as [[resp|e] s];
    cbn [fst snd]; [|reflexivity].
  destruct (py_getitem resp (VStr "hits")) as [h|e]; cbn [rbind]; [|reflexivity].
  destruct (py_getitem h (VStr "hits")) as [hits|e]; [|reflexivity].
  destruct (py_iter hits) as [items|e]; [|reflexivity].
  destruct (py_get resp "_scroll_id") as [c'|e]; [|cbn; now rewrite app_nil_r].
  destruct (is_none c' || negb (truthy hits)).
  - cbn. now rewrite app_nil_r.
  - destruct (scroll_loop py_repr fuel u sc c' _) as [[[ys r] w2]|]; reflexivity.
Qed.

(** The first request of [scroll_data], spelled out. *)
Lemma scroll_data_start (fuel : nat) (u : string) (idx ty sc : value) (w : World E)
  (url : string) :
  make_url py_repr u [idx; ty; VStr "_search"] [("scroll", sc); ("search_type", VStr "scan")]
    = Ok url ->
  scroll_data py_repr fuel u idx ty sc w =
  let w1 := after_get w url (fst (http_get E url (server w))) (snd (http_get E url (server w))) in
  match fst (http_get E url (server w)) with
  | Raise e => Some ([], Raise e, w1)
  | Ok resp =>
      match py_get resp "_scroll_id" with
      | Raise e => Some ([], Raise e, w1)
      | Ok c => if is_none c then Some ([], Ok tt, w1)
                else scroll_loop py_repr fuel u sc c w1
      end
  end.
Proof.
  intros Hurl. unfold scroll_data, gbind, glift, lift, gret, session_get, after_get.
  rewrite Hurl.
  destruct (http_get E url (server w)) as [[resp|e] s]; cbn [fst snd]; [|reflexivity].
  destruct (py_get resp "_scroll_id") as [c|e]; [|reflexivity].
  destruct (is_none c); [reflexivity|].
  destruct (scroll_loop py_repr fuel u sc c _) as [[[ys r] w2]|]; reflexivity.
Qed.

Lemma cursor_of_some (resp c : value) :
  cursor_of resp = Some c -> py_get resp "_scroll_id" = Ok c /\ is_none c = false.
Proof.
  unfold cursor_of. destruct (py_get resp "_scroll_id") as [c'|e]; [|discriminate].
  destruct (is_none c') eqn:Hn; [discriminate|].
  intros H. injection H as <-. now split.
Qed.

Lemma cursor_of_none_dict (kv : list (string * value)) :
  cursor_of (VDict kv) = None -> py_get (VDict kv) "_scroll_id" = Ok VNone.
Proof.
  unfold cursor_of. cbn [py_get].
  destruct (dict_lookup kv "_scroll_id") as [c|]; [|reflexivity].
  destruct c; cbn; intros H; try discriminate. reflexivity.
Qed.

(** C9. When the initial search response carries no scroll cursor,
    [scroll_data] yields nothing and returns normally, whatever the fuel,
    and the only request of the session is the initial search. *)
Theorem scroll_data_no_cursor (fuel : nat) (u : string) (idx ty sc : value) (w : World E)
  (url : string) (kv : list (string * value)) (s : Server E) :
  make_url py_repr u [idx; ty; VStr "_search"] [("scroll", sc); ("search_type", VStr "scan")]
    = Ok url ->
  http_get E url (server w) = (Ok (VDict kv), s) ->
  cursor_of (VDict kv) = None ->
  scroll_data py_repr fuel u idx ty sc w
  = Some ([], Ok tt, after_get w url (Ok (VDict kv)) s).
Proof.
  intros Hurl Hget Hnone.
  rewrite (scroll_data_start fuel u idx ty sc w url Hurl), Hget. cbn [fst snd].
  now rewrite (cursor_of_none_dict kv Hnone).
Qed.

(** C1, as the code has it.  When the initial response carries cursor C1,
    the response requested with C1 carries cursor C2 and one hit, and the
    response requested with C2 carries no cursor and a hit list, then
    [scroll_data] yields the hit of the second response followed by the
    hits of the third, in the order of the cluster, and returns after
    exactly these three requests.  The hits of the initial response are not
    yielded. *)
Theorem scroll_data_three_responses (fuel : nat) (u : string) (idx ty sc : value)
  (w : World E) (url : string)
  (kv0 kv1 kv2 : list (string * value)) (c1 c2 h : value) (hs : list value)
  (s1 s2 s3 : Server E) :
  make_url py_repr u [idx; ty; VStr "_search"] [("scroll", sc); ("search_type", VStr "scan")]
    = Ok url ->
  http_get E url (server w) = (Ok (VDict kv0), s1) ->
  cursor_of (VDict kv0) = Some c1 ->
  http_get E (continuation_url py_repr u sc c1) s1 = (Ok (VDict kv1), s2) ->
  cursor_of (VDict kv1) = Some c2 ->
  hit_list (VDict kv1) = Ok (VList [h]) ->
  http_get E (continuation_url py_repr u sc c2) s2 = (Ok (VDict kv2), s3) ->
  cursor_of (VDict kv2) = None ->
  hit_list (VDict kv2) = Ok (VList hs) ->
  scroll_data py_repr (S (S fuel)) u idx ty sc w
  = Some (h :: hs, Ok tt,
          after_get
            (after_get (after_get w url (Ok (VDict kv0)) s1)
               (continuation_url py_repr u sc c1) (Ok (VDict kv1)) s2)
            (continuation_url py_repr u sc c2) (Ok (VDict kv2)) s3).
Proof.
  intros Hurl H0 Hc1 H1 Hc2 Hh1 H2 Hc3 Hh2.
  apply cursor_of_some in Hc1 as [Hc1 Hn1].
  apply cursor_of_some in Hc2 as [Hc2 Hn2].
  apply cursor_of_none_dict in Hc3.
  rewrite (scroll_data_start _ u idx ty sc w url Hurl), H0. cbn [fst snd]. rewrite Hc1, Hn1.
  rewrite scroll_loop_step. cbn zeta. cbn [after_get server]. rewrite H1. cbn [fst snd].
  rewrite Hh1. cbn [py_iter]. rewrite Hc2, Hn2. cbn [truthy negb orb].
  rewrite scroll_loop_step. cbn zeta. cbn [after_get server]. rewrite H2. cbn [fst snd].
  rewrite Hh2. cbn [py_iter]. rewrite Hc3. cbn [is_none orb].
  reflexivity.
Qed.





(** An exhausted answer ends the loop at once, whatever fuel is left. *)
Lemma scroll_loop_stops (fuel : nat) (u : string) (sc c : value) (w : World E)
  (kv : list (string * value)) (hits : value) (items : list value) (s : Server E) :
  http_get E (continuation_url py_repr u sc c) (server w) = (Ok (VDict kv), s) ->
  hit_list (VDict kv) = Ok hits ->
  py_iter hits = Ok items ->
  exhausted (VDict kv) ->
  scroll_loop py_repr (S fuel) u sc c w
  = Some (items, Ok tt, after_get w (continuation_url py_repr u sc c) (Ok (VDict kv)) s).
Proof.
  intros Hget Hhits Hiter Hex. rewrite scroll_loop_step. cbn zeta.
  rewrite Hget. cbn [fst snd]. rewrite Hhits, Hiter.
  destruct Hex as [Hno|(hits' & Hh & Hfalse)].
  - now rewrite (cursor_of_none_dict kv Hno).
  - rewrite Hhits in Hh. injection Hh as <-. rewrite Hfalse. cbn [negb].
    cbn [py_get]. destruct (dict_lookup kv "_scroll_id") as [c'|];
      now rewrite orb_true_r.
Qed.

(** An answer with a cursor and hits sends the loop into its next turn. *)
Lemma scroll_loop_goes_on (fuel : nat) (u : string) (sc c c' : value) (w : World E)
  (kv : list (string * value)) (hits : value) (items : list value) (s : Server E) :
  http_get E (continuation_url py_repr u sc c) (server w) = (Ok (VDict kv), s) ->
  hit_list (VDict kv) = Ok hits ->
  py_iter hits = Ok items ->
  cursor_of (VDict kv) = Some c' ->
  truthy hits = true ->
  scroll_loop py_repr (S fuel) u sc c w
  = match scroll_loop py_repr fuel u sc c'
            (after_get w (continuation_url py_repr u sc c) (Ok (VDict kv)) s) with
    | Some (ys, r, w2) => Some ((items ++ ys)%list, r, w2)
    | None => None
    end.
Proof.
  intros Hget Hhits Hiter Hc Htrue. rewrite scroll_loop_step. cbn zeta.
  rewrite Hget. cbn [fst snd]. rewrite Hhits, Hiter.
  apply cursor_of_some in Hc as [Hc Hn]. now rewrite Hc, Hn, Htrue.
Qed.


End ScrollProperties.

(** The session of [Fixtures.three_responses]: the code yields the one hit
    of the response to C1, not the three hits of the claim. *)
Lemma scroll_data_three_hits_counterexample :
  Fixtures.three_responses Fixtures.search_test_data 0
    = Ok (Fixtures.page (Some "C1") [Fixtures.hit "1"; Fixtures.hit "2"]) /\
  Fixtures.three_responses (Fixtures.scroll_with "C1") 1
    = Ok (Fixtures.page (Some "C2") [Fixtures.hit "3"]) /\
  Fixtures.three_responses (Fixtures.scroll_with "C2") 2 = Ok (Fixtures.page None []) /\
  exists w',
    scroll_data Demo.no_repr 5 "http://localhost:9200" (VStr "test") (VStr "data")
      default_scroll (Demo.start Fixtures.three_responses Fixtures.empty_dir)
    = Some ([Fixtures.hit "3"], Ok tt, w') /\
    requested (trace w')
    = [Fixtures.search_test_data; Fixtures.scroll_with "C1"; Fixtures.scroll_with "C2"] /\
    [Fixtures.hit "3"] <> [Fixtures.hit "1"; Fixtures.hit "2"; Fixtures.hit "3"].
Proof.
  repeat split; try reflexivity.
  eexists. repeat split; try (vm_compute; reflexivity).
  discriminate.
Qed.

Lemma scroll_data_three_responses_witness :
  exists w',
    scroll_data Demo.no_repr 2 "http://localhost:9200" (VStr "test") (VStr "data")
      default_scroll (Demo.start Fixtures.three_responses Fixtures.empty_dir)
    = Some ([Fixtures.hit "3"], Ok tt, w') /\
    requested (trace w')
    = [Fixtures.search_test_data; Fixtures.scroll_with "C1"; Fixtures.scroll_with "C2"].
Proof.
  eexists. split.
  - apply (scroll_data_three_responses Demo.no_repr (Demo.cluster Fixtures.three_responses)
             0 "http://localhost:9200" (VStr "test") (VStr "data") default_scroll
             (Demo.start Fixtures.three_responses Fixtures.empty_dir)
             Fixtures.search_test_data
             [("_scroll_id", VStr "C1");
              ("hits", VDict [("hits", VList [Fixtures.hit "1"; Fixtures.hit "2"])])]
             [("_scroll_id", VStr "C2"); ("hits", VDict [("hits", VList [Fixtures.hit "3"])])]
             [("hits", VDict [("hits", VList [])])]
             (VStr "C1") (VStr "C2") (Fixtures.hit "3") [] 1 2 3);
      reflexivity.
  - reflexivity.
Defined.

Lemma scroll_data_no_cursor_witness :
  scroll_data Demo.no_repr 0 "http://localhost:9200" (VStr "test") (VStr "data")
    default_scroll (Demo.start (Fixtures.always (Fixtures.page None [])) Fixtures.empty_dir)
  = Some ([], Ok tt,
          after_get (Demo.start (Fixtures.always (Fixtures.page None [])) Fixtures.empty_dir)
            Fixtures.search_test_data (Ok (Fixtures.page None [])) 1).
Proof.
  apply (scroll_data_no_cursor Demo.no_repr (Demo.cluster (Fixtures.always (Fixtures.page None [])))
           0 "http://localhost:9200" (VStr "test") (VStr "data") default_scroll
           (Demo.start (Fixtures.always (Fixtures.page None [])) Fixtures.empty_dir)
           Fixtures.search_test_data [("hits", VDict [("hits", VList [])])] 1);
    reflexivity.
Defined.



(** ** The mapping reader *)

Lemma existsb_eqb_In (k : string) (l : list string) :
  existsb (String.eqb k) l = true <-> In k l.
Proof.
  rewrite existsb_exists. split.
  - intros (x & Hin & Heq). apply String.eqb_eq in Heq. now subst.
  - intros Hin. exists k. split; [exact Hin | apply String.eqb_refl].
Qed.

Lemma existsb_eqb_not_In (k : string) (l : list string) :
  existsb (String.eqb k) l = false <-> ~ In k l.
Proof.
  rewrite <- existsb_eqb_In. destruct (existsb (String.eqb k) l); split; intros H;
    try reflexivity; try discriminate; try (intros H'; discriminate).
  now destruct H.
Qed.

Section MappingProperties.

Variable py_repr : value -> string.
Variable E : Env.
Variable cfg : Config.

Lemma make_url_mapping :
  make_url py_repr (uri cfg) [of_opt (index_name cfg); VStr "_mapping"] []
  = Ok (mapping_url cfg).
Proof.
  unfold make_url, mapping_url, str_join.
  destruct (index_name cfg) as [i|]; cbn; [|reflexivity].
  destruct (String.eqb i ""); cbn; reflexivity.
Qed.

(** [query_from_url] after the cluster has answered [data]. *)
Lemma query_from_url_answered (w : World E) (data : value) (s : Server E) :
  http_get E (mapping_url cfg) (server w) = (Ok data, s) ->
  query_from_url py_repr cfg w =
  let w1 := after_get w (mapping_url cfg) (Ok data) s in
  match py_contains "error" data with
  | Raise e => Some (Raise e, w1)
  | Ok true => Some (Raise InvalidRequest, w1)
  | Ok false =>
      if truthy (of_opt (index_name cfg)) then
        match (entry <- py_getitem data (of_opt (index_name cfg)) ;;
               py_get entry "mappings")%result with
        | Raise e => Some (Raise e, w1)
        | Ok m => if truthy m then Some (Ok data, w1)
                  else Some (Raise (MappingNotFound py_repr (of_opt (index_name cfg))), w1)
        end
      else Some (Ok data, w1)
  end.
Proof.
  intros Hget. unfold query_from_url, bind, lift, session_get, raise, ret, after_get.
  rewrite make_url_mapping, Hget.
  destruct (py_contains "error" data) as [[|]|e]; try reflexivity.
  destruct (truthy (of_opt (index_name cfg))); [|reflexivity].
  destruct (py_getitem data (of_opt (index_name cfg))) as [entry|e]; cbn [rbind];
    [|reflexivity].
  destruct (py_get entry "mappings") as [m|e]; [|reflexivity].
  destruct (truthy m); reflexivity.
Qed.

Lemma truthy_configured (i : string) :
  configured cfg i -> truthy (of_opt (index_name cfg)) = true.
Proof.
  intros [Hi Hne]. rewrite Hi. cbn.
  destruct (String.eqb i "") eqn:Heq; [|reflexivity].
  apply String.eqb_eq in Heq. contradiction.
Qed.

Lemma truthy_unconfigured :
  unconfigured cfg -> truthy (of_opt (index_name cfg)) = false.
Proof.
  intros [Hi|Hi]; rewrite Hi; reflexivity.
Qed.

(** C3, as the code has it.  For every response body of the mapping query
    that is a JSON object: if it has an [error] key, [query_from_url] fails
    with InvalidRequest; otherwise, if an index is configured and the body
    holds an object for it whose [mappings] value is empty or absent, it
    fails with MappingNotFound; otherwise, if no index is configured, or the
    body holds an object for the configured index whose [mappings] value is
    not empty, it returns the body unchanged. *)
Theorem query_from_url_cases (w : World E) (d : list (string * value)) (s : Server E)
  (Hget : http_get E (mapping_url cfg) (server w) = (Ok (VDict d), s)) :
  let w1 := after_get w (mapping_url cfg) (Ok (VDict d)) s in
  (In "error" (dict_keys d) ->
   query_from_url py_repr cfg w = Some (Raise InvalidRequest, w1)) /\
  (~ In "error" (dict_keys d) ->
   (forall i entry,
      configured cfg i -> dict_lookup d i = Some (VDict entry) ->
      truthy (mappings_value entry) = false ->
      query_from_url py_repr cfg w = Some (Raise (MappingNotFound py_repr (VStr i)), w1)) /\
   (forall i entry,
      configured cfg i -> dict_lookup d i = Some (VDict entry) ->
      truthy (mappings_value entry) = true ->
      query_from_url py_repr cfg w = Some (Ok (VDict d), w1)) /\
   (unconfigured cfg ->
    query_from_url py_repr cfg w = Some (Ok (VDict d), w1))).
Proof.
  intros w1. subst w1.
  rewrite (query_from_url_answered w (VDict d) s Hget). cbn zeta. cbn [py_contains].
  split.
  - intros Herr. apply existsb_eqb_In in Herr. now rewrite Herr.
  - intros Hno. apply existsb_eqb_not_In in Hno. rewrite Hno.
    assert (Hentry : forall i entry,
              configured cfg i -> dict_lookup d i = Some (VDict entry) ->
              (entry0 <- py_getitem (VDict d) (of_opt (index_name cfg)) ;;
               py_get entry0 "mappings")%result = Ok (mappings_value entry)).
    { intros i entry [Hi Hne] Hd. rewrite Hi. cbn [of_opt py_getitem]. rewrite Hd.
      cbn [rbind py_get]. unfold mappings_value.
      now destruct (dict_lookup entry "mappings"). }
    repeat split.
    + intros i entry Hc Hd Hm. rewrite (truthy_configured i Hc), (Hentry i entry Hc Hd), Hm.
      destruct Hc as [Hi _]. now rewrite Hi.
    + intros i entry Hc Hd Hm. now rewrite (truthy_configured i Hc), (Hentry i entry Hc Hd), Hm.
    + intros Hu. now rewrite (truthy_unconfigured Hu).
Qed.

End MappingProperties.

(** With index [test] configured, the body [{}] has no [error] key and no
    entry for [test]: the lookup raises [KeyError], which is neither
    MappingNotFound nor a return of the body. *)
Lemma query_from_url_missing_index_counterexample :
  exists w',
    query_from_url Demo.no_repr Fixtures.ep
      (Demo.start (Fixtures.always (VDict [])) Fixtures.empty_dir)
    = Some (Raise (KeyError (VStr "test")), w') /\
    requested (trace w') = ["http://localhost:9200/test/_mapping"] /\
    py_contains "error" (VDict []) = Ok false /\
    KeyError (VStr "test") <> InvalidRequest /\
    KeyError (VStr "test") <> MappingNotFound Demo.no_repr (VStr "test").
Proof.
  eexists. repeat split; try (vm_compute; reflexivity); discriminate.
Qed.

Lemma query_from_url_cases_witness :
  query_from_url Demo.no_repr Fixtures.ep
    (Demo.start (Fixtures.always (VDict Fixtures.test_mappings)) Fixtures.empty_dir)
  = Some (Ok (VDict Fixtures.test_mappings),
          after_get (Demo.start (Fixtures.always (VDict Fixtures.test_mappings))
                       Fixtures.empty_dir)
            "http://localhost:9200/test/_mapping" (Ok (VDict Fixtures.test_mappings)) 1).
Proof.
  refine (proj1 (proj2 (proj2 (query_from_url_cases Demo.no_repr
            (Demo.cluster (Fixtures.always (VDict Fixtures.test_mappings))) Fixtures.ep
            (Demo.start (Fixtures.always (VDict Fixtures.test_mappings)) Fixtures.empty_dir)
            Fixtures.test_mappings 1 eq_refl) _)) "test" _ _ eq_refl eq_refl).
  - cbn. intros [H|[]]. discriminate.
  - split; [reflexivity | discriminate].
Defined.

(** ** Mapping records *)

Lemma in_excludes_str (t : string) : in_excludes (VStr t) = negb (is_type_key t).
Proof.
  unfold in_excludes, is_type_key, excludes, exclusion_set.
  now rewrite negb_involutive.
Qed.



(** The inner loop on the keys of a well-formed [mappings] object. *)
Lemma type_records_keys (i : string) (ms : list (string * value)) (keys : list string) :
  (forall t, In t keys -> is_type_key t = true -> exists m, dict_lookup ms t = Some (VDict m)) ->
  type_records (VStr i) (VDict ms) (map VStr keys)
  = {| yielded := map (fun t => mapping_record (VStr i) (VStr t) (schema_of ms t))
                    (filter is_type_key keys);
       ending := None |}.
Proof.
  induction keys as [|t keys IH]; intros Hok; [reflexivity|].
  cbn [map type_records filter]. rewrite in_excludes_str.
  assert (Hrest : forall t', In t' keys -> is_type_key t' = true ->
                             exists m, dict_lookup ms t' = Some (VDict m)).
  { intros t' Hin. apply Hok. now right. }
  destruct (is_type_key t) eqn:Hkey; cbn [negb].
  - destruct (Hok t (or_introl eq_refl) Hkey) as [m Hm].
    cbn [py_getitem]. rewrite Hm. cbn [rbind py_get].
    rewrite (IH Hrest). unfold run_yield, schema_of. cbn [yielded ending map]. rewrite Hm.
    now destruct (dict_lookup m "properties").
  - apply (IH Hrest).
Qed.

(** The outer loop on the indices of a raw mapping document. *)
Lemma index_records_keys (d : list (string * value)) (idxs : list string) :
  (forall i, In i idxs ->
     exists e ms,
       dict_lookup d i = Some (VDict e) /\
       dict_lookup e "mappings" = Some (VDict ms) /\
       forall t, In t (dict_keys ms) -> is_type_key t = true ->
         exists m, dict_lookup ms t = Some (VDict m)) ->
  index_records (VDict d) (map VStr idxs)
  = {| yielded :=
         flat_map
           (fun i =>
              map (fun t => mapping_record (VStr i) (VStr t) (schema_of (mappings_of d i) t))
                (filter is_type_key (dict_keys (mappings_of d i))))
           idxs;
       ending := None |}.
Proof.
  induction idxs as [|i idxs IH]; intros Hok; [reflexivity|].
  destruct (Hok i (or_introl eq_refl)) as (e & ms & Hd & He & Hms).
  cbn [map index_records py_getitem]. rewrite Hd. cbn [rbind py_getitem]. rewrite He.
  cbn [rbind py_iter]. rewrite (type_records_keys i ms (dict_keys ms) Hms).
  rewrite IH by (intros i' Hin; apply Hok; now right).
  assert (Hof : mappings_of d i = ms) by (unfold mappings_of; now rewrite Hd, He).
  unfold run_seq. cbn [yielded ending flat_map]. now rewrite Hof.
Qed.





Section RecordProperties.

Variable py_repr : value -> string.
Variable E : Env.
Variable cfg : Config.

(** [query_mappings] in terms of [query_from_url] and the loops. *)
Lemma query_mappings_run (w : World E) :
  query_mappings py_repr cfg w =
  match query_from_url py_repr cfg w with
  | Some (Ok data, w') =>
      Some (yielded (mapping_records data),
            match ending (mapping_records data) with
            | Some e => Raise e
            | None => Ok tt
            end, w')
  | Some (Raise e, w') => Some ([], Raise e, w')
  | None => None
  end.
Proof.
  unfold query_mappings, gbind, glift, yield_all, gret, raise.
  destruct (query_from_url py_repr cfg w) as [[[data|e] w']|]; try reflexivity.
  cbn [app]. destruct (ending (mapping_records data)); now rewrite app_nil_r.
Qed.


End RecordProperties.

Lemma test_mappings_raw : raw_mapping_document Fixtures.test_mappings.
Proof.
  intros i [<-|[]]. eexists. eexists. split; [reflexivity|]. split; [reflexivity|].
  intros t [<-|[<-|[<-|[<-|[]]]]] Hkey; try discriminate.
  eexists. reflexivity.
Defined.


(** ** The path builder *)

Lemma has_char_append (c : ascii) (a b : string) :
  has_char c (a ++ b) = has_char c a || has_char c b.
Proof.
  induction a as [|x a IH]; cbn; [reflexivity|].
  now rewrite IH, orb_assoc.
Qed.




Lemma truthy_nonempty (s : string) : s <> "" -> truthy (VStr s) = true.
Proof.
  intros H. cbn. destruct (String.eqb s "") eqn:Heq; [|reflexivity].
  apply String.eqb_eq in Heq. contradiction.
Qed.









(** ** The importer *)

Lemma py_get_dict (kv : list (string * value)) (k : string) :
  py_get (VDict kv) k
  = Ok (match dict_lookup kv k with Some v => v | None => VNone end).
Proof.
  cbn [py_get]. now destruct (dict_lookup kv k).
Qed.








Section UploadProperties.

Variable py_repr : value -> string.
Variable E : Env.
Variable cfg : Config.






(** [upload_data] once the path of the document file is known. *)
Lemma upload_data_run (t fp : string) (w : World E) :
  make_fp (dirname cfg) [of_opt (index_name cfg); VStr t] default_ext = Ok fp ->
  upload_data py_repr cfg (VStr t) w =
  if path_exists E fp (disk w) then
    match read_json E fp (disk w) with
    | Ok data =>
        match py_iter data with
        | Ok items =>
            for_each items (upload_document py_repr cfg (VStr t)) (after_load w fp)
        | Raise e => Some (Raise e, after_load w fp)
        end
    | Raise e => Some (Raise e, after_load w fp)
    end
  else Some (Raise (DocumentFileNotFound py_repr (VStr t)), w).
Proof.
  intros Hfp. unfold upload_data, bind, lift, os_path_exists, raise, file_load, log, after_load.
  rewrite Hfp. destruct (path_exists E fp (disk w)); cbn [negb]; [|reflexivity].
  destruct (read_json E fp (disk w)) as [data|e]; [|reflexivity].
  destruct (py_iter data) as [items|e]; reflexivity.
Qed.




End UploadProperties.







(** ** The directory scan *)

(** C4, where the code departs from it.  The exporter names the files of
    type [data] of index [ems-other_log-2015.09.15], the index of the
    source's own example, [ems-other_log-2015.09.15.data.mapping.json] and
    [ems-other_log-2015.09.15.data.json]; the scan reads type [09] off
    both, and [upload] stops on the missing mapping file of type [09]
    without a single request.  Off the files of index [test] it reads
    [data]. *)
Theorem scanned_type_dotted_index :
  file_path "/tmp/fake" "ems-other_log-2015.09.15" "data" KMapping
    = Ok "/tmp/fake/ems-other_log-2015.09.15.data.mapping.json" /\
  file_path "/tmp/fake" "ems-other_log-2015.09.15" "data" KDocument
    = Ok "/tmp/fake/ems-other_log-2015.09.15.data.json" /\
  scanned_type "ems-other_log-2015.09.15.data.mapping.json" = Ok "09" /\
  scanned_type "ems-other_log-2015.09.15.data.json" = Ok "09" /\
  upload Demo.no_repr Fixtures.dated VNone
    (Demo.start (Fixtures.always VNone) Fixtures.dated_dump)
  = Some (Raise (MappingFileNotFound Demo.no_repr (VStr "09")),
          Demo.start (Fixtures.always VNone) Fixtures.dated_dump) /\
  scanned_type "test.data.mapping.json" = Ok "data" /\
  scanned_type "test.data.json" = Ok "data".
Proof.
  repeat split; vm_compute; reflexivity.
Qed.

(** ** The entry points *)

Section EntryProperties.

Variable py_repr : value -> string.
Variable E : Env.
Variable cfg : Config.

Lemma dir_ready_missing (w : World E) :
  dir_missing cfg w -> dir_ready cfg w = Some (Ok false, w).
Proof.
  unfold dir_missing, dir_ready. destruct (dirname cfg) as [d|]; [|reflexivity].
  intros [->|Hex]; [reflexivity|].
  destruct (truthy (VStr d)); [|reflexivity].
  unfold os_path_exists. now rewrite Hex.
Qed.

Lemma dir_ready_present (w : World E) :
  dir_present cfg w -> dir_ready cfg w = Some (Ok true, w).
Proof.
  intros (d & Hd & Hne & Hex). unfold dir_ready. rewrite Hd, (truthy_nonempty d Hne).
  unfold os_path_exists. now rewrite Hex.
Qed.

(** [except Exception: raise] changes nothing. *)
Lemma try_except_reraise {A : Type} (m : M E A) (w : World E) :
  try_except m (fun e => raise e) w = m w.
Proof.
  unfold try_except, raise. destruct (m w) as [[[a|e] w']|]; reflexivity.
Qed.

(** C7.  With the configured directory missing, [save] and [upload] fail
    with DirectoryNotFound and leave the world as it was: no request, no
    file operation.  With the directory there, [save] is [dump_mapping]
    followed by [dump_data]: an exception of [dump_mapping] is the outcome
    of [save], in the world where it was raised, and after a normal
    [dump_mapping] the outcome of [dump_data], exception or not, is the
    outcome of [save]. *)
Theorem save_upload_directory (fuel : nat) (type_name : value) (w : World E) :
  (dir_missing cfg w ->
   save py_repr cfg fuel w = Some (Raise (DirectoryNotFound py_repr cfg), w) /\
   upload py_repr cfg type_name w = Some (Raise (DirectoryNotFound py_repr cfg), w)) /\
  (dir_present cfg w ->
   save py_repr cfg fuel w
   = bind (dump_mapping py_repr cfg) (fun _ => dump_data py_repr cfg fuel) w /\
   (forall e w1,
      dump_mapping py_repr cfg w = Some (Raise e, w1) ->
      save py_repr cfg fuel w = Some (Raise e, w1)) /\
   (forall w1 r w2,
      dump_mapping py_repr cfg w = Some (Ok tt, w1) ->
      dump_data py_repr cfg fuel w1 = Some (r, w2) ->
      save py_repr cfg fuel w = Some (r, w2))).
Proof.
  split.
  - intros Hmiss. unfold save, upload, bind.
    rewrite (dir_ready_missing w Hmiss). cbn [negb]. now split.
  - intros Hpres.
    assert (Hsave : save py_repr cfg fuel w
                    = bind (dump_mapping py_repr cfg)
                        (fun _ => dump_data py_repr cfg fuel) w).
    { unfold save. unfold bind at 1. rewrite (dir_ready_present w Hpres). cbn [negb].
      apply try_except_reraise. }
    split; [exact Hsave|]. rewrite Hsave. unfold bind. split.
    + intros e w1 Hm. now rewrite Hm.
    + intros w1 r w2 Hm Hd. now rewrite Hm.
Qed.

End EntryProperties.

Lemma save_upload_directory_witness :
  (save Demo.no_repr Fixtures.ep 3 (Demo.start (Fixtures.always VNone) Fixtures.elsewhere)
   = Some (Raise (IOError "Dir /tmp/fake does not exist."),
           Demo.start (Fixtures.always VNone) Fixtures.elsewhere) /\
   upload Demo.no_repr Fixtures.ep VNone
     (Demo.start (Fixtures.always VNone) Fixtures.elsewhere)
   = Some (Raise (IOError "Dir /tmp/fake does not exist."),
           Demo.start (Fixtures.always VNone) Fixtures.elsewhere)) /\
  save Demo.no_repr Fixtures.ep 3
    (Demo.start (Fixtures.always (VDict Fixtures.test_mappings)) Fixtures.empty_dir)
  = bind (dump_mapping Demo.no_repr Fixtures.ep)
      (fun _ => dump_data Demo.no_repr Fixtures.ep 3)
      (Demo.start (Fixtures.always (VDict Fixtures.test_mappings)) Fixtures.empty_dir).
Proof.
  split.
  - apply (proj1 (save_upload_directory Demo.no_repr (Demo.cluster (Fixtures.always VNone))
                    Fixtures.ep 3 VNone
                    (Demo.start (Fixtures.always VNone) Fixtures.elsewhere))).
    right. reflexivity.
  - apply (proj2 (save_upload_directory Demo.no_repr
                    (Demo.cluster (Fixtures.always (VDict Fixtures.test_mappings)))
                    Fixtures.ep 3 VNone
                    (Demo.start (Fixtures.always (VDict Fixtures.test_mappings))
                       Fixtures.empty_dir))).
    exists "/tmp/fake". split; [reflexivity|]. split; [discriminate | reflexivity].
Defined.

(** * Further properties *)

(** ** The URL builder *)

Lemma all_strs_strings (segs : list string) : all_strs (map VStr segs) = Ok segs.
Proof.
  induction segs as [|s segs IH]; [reflexivity|].
  cbn [map all_strs]. now rewrite IH.
Qed.

Lemma filter_truthy_strings (segs : list string) :
  filter truthy (map VStr segs) = map VStr (filter nonempty segs).
Proof.
  induction segs as [|s segs IH]; [reflexivity|].
  cbn [map filter]. change (truthy (VStr s)) with (nonempty s).
  destruct (nonempty s); cbn [map]; now rewrite IH.
Qed.

Lemma append_nonempty (a b : string) : a <> "" -> String.eqb (a ++ b) "" = false.
Proof.
  destruct a as [|c a]; [contradiction | reflexivity].
Qed.

Lemma endswith_slash_appended (u : string) : endswith (u ++ "/") "/" = true.
Proof.
  induction u as [|c u IH]; [reflexivity|].
  cbn [String.append endswith]. rewrite IH. now destruct (String.eqb _ _).
Qed.

Lemma with_slash_ends (u : string) : endswith (with_slash u) "/" = true.
Proof.
  unfold with_slash. destruct (endswith u "/") eqn:H; [exact H|].
  apply endswith_slash_appended.
Qed.

Section UrlProperties.

Variable py_repr : value -> string.

Lemma format_param_nonempty (kv : string * value) : format_param py_repr kv <> "".
Proof.
  unfold format_param. destruct (fst kv); discriminate.
Qed.

Lemma joined_params_nonempty (p : string * value) (ps : list (string * value)) :
  String.eqb (String.concat "&" (map (format_param py_repr) (p :: ps))) "" = false.
Proof.
  cbn [map String.concat]. destruct (map (format_param py_repr) ps) as [|q qs].
  - destruct (format_param py_repr p) eqn:H; [|reflexivity].
    now destruct (format_param_nonempty p).
  - apply append_nonempty. apply format_param_nonempty.
Qed.

(** X1.  On string segments [make_url] never fails and builds the base URI
    with exactly one slash added when it has none at its end, the non-empty
    segments joined by slashes (the empty ones dropped), and the query
    string: nothing when there are no parameters, otherwise a question mark
    and the parameters as [key=value] joined by ampersands in the order of
    the call. *)
Theorem make_url_strings (u : string) (segs : list string) (params : list (string * value)) :
  make_url py_repr u (map VStr segs) params
  = Ok (with_slash u ++ String.concat "/" (filter nonempty segs)
          ++ query_string py_repr params).
Proof.
  unfold make_url, str_join. rewrite filter_truthy_strings, all_strs_strings.
  cbn [rbind]. destruct params as [|p ps].
  - cbn [map String.concat String.eqb query_string]. now rewrite append_nil_r.
  - rewrite joined_params_nonempty. reflexivity.
Qed.

(** X2.  The trailing slash of the base URI does not matter: a base URI
    and the same with the slash [make_url] would add give the same result,
    whatever the segments and parameters. *)
Theorem make_url_trailing_slash (u : string) (path : list value)
  (params : list (string * value)) :
  make_url py_repr (with_slash u) path params = make_url py_repr u path params.
Proof.
  unfold make_url.
  assert (H : with_slash (with_slash u) = with_slash u).
  { unfold with_slash at 1. now rewrite with_slash_ends. }
  now rewrite H.
Qed.

(** X3.  A segment that counts as false (None, the empty string, zero, an
    empty list or dictionary) leaves no trace in the URL, wherever it
    stands. *)
Theorem make_url_drops_falsy (u : string) (before after : list value) (x : value)
  (params : list (string * value)) :
  truthy x = false ->
  make_url py_repr u (before ++ x :: after) params
  = make_url py_repr u (before ++ after) params.
Proof.
  intros H. unfold make_url. rewrite !filter_app. cbn [filter]. now rewrite H.
Qed.

Lemma all_strs_non_string (before after : list value) (x : value) :
  (forall s, x <> VStr s) ->
  (forall y, In y before -> exists s, y = VStr s) ->
  all_strs (before ++ x :: after) = Raise TypeError.
Proof.
  intros Hx. induction before as [|y before IH]; intros Hb.
  - cbn [app all_strs]. destruct x; try reflexivity. now destruct (Hx s).
  - destruct (Hb y (or_introl eq_refl)) as [s ->].
    cbn [app all_strs]. rewrite IH; [reflexivity|].
    intros z Hz. apply Hb. now right.
Qed.

Lemma make_url_raises (u : string) (before after : list value) (x : value)
  (params : list (string * value)) :
  Forall (fun y => truthy y = false \/ exists s, y = VStr s) before ->
  true_non_string x ->
  make_url py_repr u (before ++ x :: after) params = Raise TypeError.
Proof.
  intros Hb [Ht Hx]. unfold make_url, str_join.
  rewrite filter_app. cbn [filter]. rewrite Ht.
  rewrite (all_strs_non_string (filter truthy before) (filter truthy after) x Hx).
  - reflexivity.
  - intros y Hy. apply filter_In in Hy as [Hin Hty].
    destruct (proj1 (Forall_forall _ _) Hb y Hin) as [Hf|Hs]; [congruence | exact Hs].
Qed.

(** X4.  A segment that counts as true and is not a string (a number that
    is not zero, [True], a non-empty list or dictionary) makes [make_url]
    raise [TypeError] when the segments before it are strings: the join
    takes strings only. *)
Theorem make_url_non_string (u : string) (before : list string) (after : list value)
  (x : value) (params : list (string * value)) :
  true_non_string x ->
  make_url py_repr u (map VStr before ++ x :: after) params = Raise TypeError.
Proof.
  intros Hx. apply make_url_raises; [|exact Hx].
  apply Forall_forall. intros y Hy. apply in_map_iff in Hy as (s & <- & _).
  right. now exists s.
Qed.

End UrlProperties.

Lemma make_url_drops_falsy_witness :
  make_url Demo.no_repr "uri" ([VStr "index"] ++ VNone :: [VStr "_mapping"]) []
  = make_url Demo.no_repr "uri" ([VStr "index"] ++ [VStr "_mapping"]) [].
Proof.
  apply (make_url_drops_falsy Demo.no_repr "uri" [VStr "index"] [VStr "_mapping"] VNone []).
  reflexivity.
Defined.

Lemma make_url_non_string_witness :
  make_url Demo.no_repr "http://localhost:9200"
    (map VStr ["test"; "data"] ++ VInt 7 :: []) [("op_type", VStr "create")]
  = Raise TypeError.
Proof.
  apply (make_url_non_string Demo.no_repr "http://localhost:9200" ["test"; "data"] []
           (VInt 7) [("op_type", VStr "create")]).
  split; [reflexivity | discriminate].
Defined.

(** ** The path builder, on strings *)



(** X6.  A component that counts as false leaves no trace in the path,
    wherever it stands: [make_fp(dir, "a", "", "b")] is
    [make_fp(dir, "a", "b")]. *)
Theorem make_fp_drops_falsy (d : option string) (before after : list value) (x : value)
  (ext : string) :
  truthy x = false ->
  make_fp d (before ++ x :: after) ext = make_fp d (before ++ after) ext.
Proof.
  intros H. unfold make_fp. f_equal.
  induction before as [|y before IH]; cbn [app strip_args].
  - now rewrite H.
  - destruct (truthy y); [|exact IH]. destruct y; try reflexivity. now rewrite IH.
Qed.

Lemma make_fp_drops_falsy_witness :
  make_fp (Some "dir") ([VStr "a"] ++ VStr "" :: [VStr "b"]) default_ext
  = make_fp (Some "dir") ([VStr "a"] ++ [VStr "b"]) default_ext.
Proof.
  apply (make_fp_drops_falsy (Some "dir") [VStr "a"] [VStr "b"] (VStr "") default_ext).
  reflexivity.
Defined.

(** ** The directory scan, on names without dots *)

Lemma substring_prefix (s x : string) : substring 0 (String.length s) (s ++ x) = s.
Proof.
  induction s as [|c s IH]; cbn.
  - now destruct x.
  - now rewrite IH.
Qed.

(** Once a character other than a dot has been seen and no slash follows,
    the cut is at the last dot. *)
Lemma ext_cut_json (s : string) :
  has_char slash s = false ->
  forall pos cut, ext_cut (s ++ ".json") pos true cut = Some (pos + String.length s).
Proof.
  induction s as [|c s IH]; intros Hs pos cut.
  - cbn. f_equal. lia.
  - cbn [has_char] in Hs. apply orb_false_elim in Hs as [Hc Hs].
    cbn [String.append ext_cut String.length]. rewrite Hc.
    destruct (Ascii.eqb c dot); rewrite (IH Hs); f_equal; lia.
Qed.

Lemma splitext_json (c : ascii) (s : string) :
  Ascii.eqb c slash = false -> Ascii.eqb c dot = false ->
  has_char slash s = false ->
  fst (splitext (String c s ++ ".json")) = String c s.
Proof.
  intros Hc Hd Hs. unfold splitext. cbn [String.append ext_cut]. rewrite Hc, Hd.
  rewrite (ext_cut_json s Hs). cbn [fst].
  change (String c (s ++ ".json")) with (String c s ++ ".json").
  change (1 + String.length s) with (String.length (String c s)).
  apply substring_prefix.
Qed.

Lemma split_dot_plain (s : string) : has_char dot s = false -> split_dot s = [s].
Proof.
  induction s as [|c s IH]; [reflexivity|].
  cbn [has_char]. intros H. apply orb_false_elim in H as [Hc Hs].
  cbn [split_dot]. now rewrite Hc, (IH Hs).
Qed.

Lemma split_dot_first (a rest : string) :
  has_char dot a = false -> split_dot (a ++ "." ++ rest) = a :: split_dot rest.
Proof.
  induction a as [|c a IH]; [reflexivity|].
  cbn [has_char]. intros H. apply orb_false_elim in H as [Hc Ha].
  cbn [String.append split_dot]. rewrite Hc.
  change (a ++ String "." rest) with (a ++ "." ++ rest). now rewrite (IH Ha).
Qed.

Lemma endswith_appended (s suf : string) : endswith (s ++ suf) suf = true.
Proof.
  induction s as [|c s IH]; cbn [String.append].
  - destruct suf as [|a suf]; [reflexivity|].
    cbn [endswith]. now rewrite String.eqb_refl.
  - cbn [endswith]. rewrite IH. now destruct (String.eqb _ _).
Qed.

(** The scan on a file name of the exporter. *)
Lemma exported_name_scanned (i t : string) (k : kind) :
  plain i -> plain t -> has_char slash i = false -> has_char slash t = false ->
  endswith (i ++ "." ++ t ++ kind_suffix k ++ ".json") ".json" = true /\
  scanned_type (i ++ "." ++ t ++ kind_suffix k ++ ".json") = Ok t.
Proof.
  intros [Hi Hdi] [Ht Hdt] Hsi Hst.
  assert (Hname : i ++ "." ++ t ++ kind_suffix k ++ ".json"
                  = (i ++ "." ++ t ++ kind_suffix k) ++ ".json")
    by (now rewrite !append_assoc).
  split.
  - rewrite Hname. apply endswith_appended.
  - unfold scanned_type. rewrite Hname.
    destruct i as [|c i]; [contradiction|].
    cbn [has_char] in Hdi, Hsi.
    apply orb_false_elim in Hdi as [Hcd Hdi]. apply orb_false_elim in Hsi as [Hcs Hsi].
    change ((String c i ++ "." ++ t ++ kind_suffix k) ++ ".json")
      with (String c (i ++ "." ++ t ++ kind_suffix k) ++ ".json").
    rewrite (splitext_json c _ Hcs Hcd).
    + change (String c (i ++ "." ++ t ++ kind_suffix k))
        with (String c i ++ "." ++ t ++ kind_suffix k).
      rewrite split_dot_first by (cbn [has_char]; now rewrite Hcd, Hdi).
      destruct k; cbn [kind_suffix].
      * change (t ++ ".mapping") with (t ++ "." ++ "mapping").
        now rewrite (split_dot_first t "mapping" Hdt).
      * now rewrite append_nil_r, (split_dot_plain t Hdt).
    + rewrite !has_char_append, Hsi, Hst. now destruct k.
Qed.

(** X7.  For an index name and a type name that are not empty and contain
    neither a dot nor a slash, the directory scan of [upload] takes the
    mapping file and the document file the exporter wrote
    ([{index}.{type}.mapping.json], [{index}.{type}.json]) as [.json] files
    and reads the type name back off both. *)
Theorem scanned_type_plain (i t : string) (k : kind) :
  plain i -> plain t -> has_char slash i = false -> has_char slash t = false ->
  endswith (i ++ "." ++ t ++ kind_suffix k ++ ".json") ".json" = true /\
  scanned_type (i ++ "." ++ t ++ kind_suffix k ++ ".json") = Ok t.
Proof.
  exact (exported_name_scanned i t k).
Qed.

Lemma scanned_type_plain_witness :
  endswith ("test" ++ "." ++ "data" ++ kind_suffix KMapping ++ ".json") ".json" = true /\
  scanned_type ("test" ++ "." ++ "data" ++ kind_suffix KMapping ++ ".json") = Ok "data".
Proof.
  apply (scanned_type_plain "test" "data" KMapping);
    try reflexivity; split; (discriminate || reflexivity).
Defined.

(** ** The scroll reader, page by page *)

Section ScrollPages.

Variable py_repr : value -> string.
Variable E : Env.

(** The loop on the pages the cluster serves. *)
Lemma scroll_loop_serves (u : string) (sc c : value) (s s' : Server E)
  (pages : list (list value)) (xs : list exchange) :
  serves py_repr E u sc c s pages xs s' ->
  forall (fuel : nat) (w : World E),
    server w = s ->
    List.length pages <= fuel ->
    scroll_loop py_repr fuel u sc c w
    = Some (concat pages, Ok tt,
            {| server := s'; disk := disk w;
               trace := (trace w ++ map get_event xs)%list |}).
Proof.
  induction 1 as [c s kv hits items s' Hget Hhits Hiter Hex
                 |c s kv hits items s' c' pages xs s'' Hget Hhits Hiter Hc Htrue Hrest IH];
    intros fuel w Hw Hfuel; subst s.
  - destruct fuel as [|fuel]; [cbn in Hfuel; lia|].
    rewrite (scroll_loop_stops py_repr E fuel u sc c w kv hits items s' Hget Hhits Hiter Hex).
    cbn [concat]. now rewrite app_nil_r.
  - destruct fuel as [|fuel]; [cbn in Hfuel; lia|].
    rewrite (scroll_loop_goes_on py_repr E fuel u sc c c' w kv hits items s'
               Hget Hhits Hiter Hc Htrue).
    rewrite (IH fuel (after_get w (continuation_url py_repr u sc c) (Ok (VDict kv)) s')
               eq_refl) by (cbn in Hfuel; lia).
    cbn [concat after_get disk trace map get_event fst snd].
    now rewrite <- app_assoc.
Qed.

(** X8.  When the initial response carries a cursor and the cluster then
    serves pages, each but the last with a cursor and hits, the last one
    without cursor or without hits, [scroll_data] yields the hits of all
    the pages, page after page in the order of the cluster, and returns
    after one request per page, provided the fuel covers the pages. *)
Theorem scroll_data_pages (fuel : nat) (u : string) (idx ty sc : value) (w : World E)
  (url : string) (kv : list (string * value)) (c : value) (s s' : Server E)
  (pages : list (list value)) (xs : list exchange) :
  make_url py_repr u [idx; ty; VStr "_search"] [("scroll", sc); ("search_type", VStr "scan")]
    = Ok url ->
  http_get E url (server w) = (Ok (VDict kv), s) ->
  cursor_of (VDict kv) = Some c ->
  serves py_repr E u sc c s pages xs s' ->
  List.length pages <= fuel ->
  scroll_data py_repr fuel u idx ty sc w
  = Some (concat pages, Ok tt,
          {| server := s'; disk := disk w;
             trace := (trace w ++ Get url (Ok (VDict kv)) :: map get_event xs)%list |}) /\
  List.length xs = List.length pages.
Proof.
  intros Hurl Hget Hc Hserves Hfuel. split.
  - rewrite (scroll_data_start py_repr E fuel u idx ty sc w url Hurl), Hget.
    cbn [fst snd]. apply cursor_of_some in Hc as [Hc Hn]. rewrite Hc, Hn.
    rewrite (scroll_loop_serves u sc c s s' pages xs Hserves fuel
               (after_get w url (Ok (VDict kv)) s) eq_refl Hfuel).
    cbn [after_get disk trace]. now rewrite <- app_assoc.
  - clear Hget Hc Hfuel. induction Hserves; cbn [List.length map]; congruence.
Qed.

(** The loop on pages that all go on, followed by an answer without a
    [hits] key. *)
Lemma scroll_loop_passes (u : string) (sc c ck : value) (s sk : Server E)
  (pages : list (list value)) (xs : list exchange) :
  passes py_repr E u sc c s pages xs ck sk ->
  forall (kv1 : list (string * value)) (s1 : Server E),
    http_get E (continuation_url py_repr u sc ck) sk = (Ok (VDict kv1), s1) ->
    dict_lookup kv1 "hits" = None ->
    forall (fuel : nat) (w : World E),
      server w = s ->
      List.length pages < fuel ->
      scroll_loop py_repr fuel u sc c w
      = Some (concat pages, Raise (KeyError (VStr "hits")),
              {| server := s1; disk := disk w;
                 trace := (trace w ++ map get_event xs
                             ++ [Get (continuation_url py_repr u sc ck) (Ok (VDict kv1))])%list |}).
Proof.
  induction 1 as [c s
                 |c s kv hits items s' c' pages xs ck sk Hget Hhits Hiter Hc Htrue Hrest IH];
    intros kv1 s1 Hget1 Hno fuel w Hw Hfuel; subst s.
  - destruct fuel as [|fuel]; [cbn in Hfuel; lia|].
    rewrite scroll_loop_step. cbn zeta. rewrite Hget1. cbn [fst snd].
    unfold hit_list. cbn [py_getitem]. rewrite Hno. reflexivity.
  - destruct fuel as [|fuel]; [cbn in Hfuel; lia|].
    rewrite (scroll_loop_goes_on py_repr E fuel u sc c c' w kv hits items s'
               Hget Hhits Hiter Hc Htrue).
    rewrite (IH kv1 s1 Hget1 Hno fuel
               (after_get w (continuation_url py_repr u sc c) (Ok (VDict kv)) s') eq_refl)
      by (cbn in Hfuel; lia).
    cbn [concat after_get disk trace map get_event fst snd].
    now rewrite <- app_assoc.
Qed.

(** X9.  Any continuation response that is an object without a [hits] key,
    such as an error body, makes [scroll_data] raise [KeyError('hits')]
    right after the request, whether or not the body carries a cursor: be
    it the first continuation response or one that comes after any number
    of pages with a cursor and hits, whose hits have then been yielded,
    page after page, and are all that is yielded. *)
Theorem scroll_data_error_body (fuel : nat) (u : string) (idx ty sc : value) (w : World E)
  (url : string) (kv kv1 : list (string * value)) (c ck : value) (s sk s1 : Server E)
  (pages : list (list value)) (xs : list exchange) :
  make_url py_repr u [idx; ty; VStr "_search"] [("scroll", sc); ("search_type", VStr "scan")]
    = Ok url ->
  http_get E url (server w) = (Ok (VDict kv), s) ->
  cursor_of (VDict kv) = Some c ->
  passes py_repr E u sc c s pages xs ck sk ->
  http_get E (continuation_url py_repr u sc ck) sk = (Ok (VDict kv1), s1) ->
  dict_lookup kv1 "hits" = None ->
  List.length pages < fuel ->
  scroll_data py_repr fuel u idx ty sc w
  = Some (concat pages, Raise (KeyError (VStr "hits")),
          {| server := s1; disk := disk w;
             trace := (trace w ++ Get url (Ok (VDict kv)) :: map get_event xs
                         ++ [Get (continuation_url py_repr u sc ck) (Ok (VDict kv1))])%list |}) /\
  List.length xs = List.length pages.
Proof.
  intros Hurl Hget Hc Hpasses Hget1 Hno Hfuel. split.
  - rewrite (scroll_data_start py_repr E fuel u idx ty sc w url Hurl), Hget.
    cbn [fst snd]. apply cursor_of_some in Hc as [Hc Hn]. rewrite Hc, Hn.
    rewrite (scroll_loop_passes u sc c ck s sk pages xs Hpasses kv1 s1 Hget1 Hno fuel
               (after_get w url (Ok (VDict kv)) s) eq_refl Hfuel).
    cbn [after_get disk trace]. now rewrite <- app_assoc.
  - clear Hget Hc Hget1 Hfuel. induction Hpasses; cbn [List.length map]; congruence.
Qed.

(** X10.  What goes wrong with the initial search ends the scroll at once,
    with nothing yielded and no continuation request: an exception of the
    transport comes out unchanged, and a body that is not an object raises
    [AttributeError], there being no [get] to call. *)
Theorem scroll_data_initial_failure (fuel : nat) (u : string) (idx ty sc : value)
  (w : World E) (url : string)
  (Hurl : make_url py_repr u [idx; ty; VStr "_search"]
            [("scroll", sc); ("search_type", VStr "scan")] = Ok url) :
  (forall e s,
     http_get E url (server w) = (Raise e, s) ->
     scroll_data py_repr fuel u idx ty sc w
     = Some ([], Raise e, after_get w url (Raise e) s)) /\
  (forall body s,
     http_get E url (server w) = (Ok body, s) ->
     (forall kv, body <> VDict kv) ->
     scroll_data py_repr fuel u idx ty sc w
     = Some ([], Raise (no_attribute body "get"), after_get w url (Ok body) s)).
Proof.
  split.
  - intros e s Hget.
    now rewrite (scroll_data_start py_repr E fuel u idx ty sc w url Hurl), Hget.
  - intros body s Hget Hbody.
    rewrite (scroll_data_start py_repr E fuel u idx ty sc w url Hurl), Hget.
    cbn [fst snd]. destruct body; try reflexivity. now destruct (Hbody d).
Qed.

End ScrollPages.

Lemma three_pages_served :
  serves Demo.no_repr (Demo.cluster Samples.three_pages) "http://localhost:9200"
    default_scroll (VStr "c") 1
    [[Fixtures.hit "1"; Fixtures.hit "2"]; [Fixtures.hit "3"]; []]
    [(Fixtures.scroll_with "c",
      Ok (Fixtures.page (Some "c") [Fixtures.hit "1"; Fixtures.hit "2"]));
     (Fixtures.scroll_with "c", Ok (Fixtures.page (Some "c") [Fixtures.hit "3"]));
     (Fixtures.scroll_with "c", Ok (Fixtures.page (Some "c") []))]
    4.
Proof.
  eapply serves_more;
    [reflexivity | reflexivity | reflexivity | reflexivity | reflexivity |].
  eapply serves_more;
    [reflexivity | reflexivity | reflexivity | reflexivity | reflexivity |].
  eapply serves_last;
    [reflexivity | reflexivity | reflexivity |].
  right. exists (VList []). split; reflexivity.
Defined.

Lemma scroll_data_pages_witness :
  exists w',
    scroll_data Demo.no_repr 3 "http://localhost:9200" (VStr "test") (VStr "data")
      default_scroll (Demo.start Samples.three_pages Fixtures.empty_dir)
    = Some ([Fixtures.hit "1"; Fixtures.hit "2"; Fixtures.hit "3"], Ok tt, w') /\
    requested (trace w')
    = [Fixtures.search_test_data; Fixtures.scroll_with "c"; Fixtures.scroll_with "c";
       Fixtures.scroll_with "c"].
Proof.
  eexists. split.
  - apply (proj1 (scroll_data_pages Demo.no_repr (Demo.cluster Samples.three_pages) 3
                    "http://localhost:9200" (VStr "test") (VStr "data") default_scroll
                    (Demo.start Samples.three_pages Fixtures.empty_dir)
                    Fixtures.search_test_data
                    [("_scroll_id", VStr "c"); ("hits", VDict [("hits", VList [])])]
                    (VStr "c") 1 4 _ _ eq_refl eq_refl eq_refl three_pages_served
                    (le_n 3))).
  - reflexivity.
Defined.

Lemma one_page_passes :
  passes Demo.no_repr (Demo.cluster Samples.expired_later) "http://localhost:9200"
    default_scroll (VStr "c") 1
    [[Fixtures.hit "1"; Fixtures.hit "2"]]
    [(Fixtures.scroll_with "c",
      Ok (Fixtures.page (Some "c") [Fixtures.hit "1"; Fixtures.hit "2"]))]
    (VStr "c") 2.
Proof.
  eapply passes_page;
    [reflexivity | reflexivity | reflexivity | reflexivity | reflexivity |].
  apply passes_none.
Defined.

Lemma scroll_data_error_body_witness :
  (exists w',
     scroll_data Demo.no_repr 1 "http://localhost:9200" (VStr "test") (VStr "data")
       default_scroll (Demo.start Samples.expired Fixtures.empty_dir)
     = Some ([], Raise (KeyError (VStr "hits")), w')) /\
  (exists w',
     scroll_data Demo.no_repr 2 "http://localhost:9200" (VStr "test") (VStr "data")
       default_scroll (Demo.start Samples.expired_later Fixtures.empty_dir)
     = Some ([Fixtures.hit "1"; Fixtures.hit "2"], Raise (KeyError (VStr "hits")), w') /\
     requested (trace w')
     = [Fixtures.search_test_data; Fixtures.scroll_with "c"; Fixtures.scroll_with "c"]).
Proof.
  split.
  - eexists.
    apply (proj1 (scroll_data_error_body Demo.no_repr (Demo.cluster Samples.expired) 1
                    "http://localhost:9200" (VStr "test") (VStr "data") default_scroll
                    (Demo.start Samples.expired Fixtures.empty_dir) Fixtures.search_test_data
                    [("_scroll_id", VStr "c"); ("hits", VDict [("hits", VList [])])]
                    [("error", VStr "SearchContextMissingException"); ("status", VInt 404)]
                    (VStr "c") (VStr "c") 1 1 2 [] [] eq_refl eq_refl eq_refl
                    (passes_none Demo.no_repr (Demo.cluster Samples.expired)
                       "http://localhost:9200" default_scroll (VStr "c") 1)
                    eq_refl eq_refl (le_n 1))).
  - eexists. split.
    + apply (proj1 (scroll_data_error_body Demo.no_repr (Demo.cluster Samples.expired_later) 2
                      "http://localhost:9200" (VStr "test") (VStr "data") default_scroll
                      (Demo.start Samples.expired_later Fixtures.empty_dir)
                      Fixtures.search_test_data
                      [("_scroll_id", VStr "c"); ("hits", VDict [("hits", VList [])])]
                      [("error", VStr "SearchContextMissingException"); ("status", VInt 404)]
                      (VStr "c") (VStr "c") 1 2 3
                      [[Fixtures.hit "1"; Fixtures.hit "2"]]
                      [(Fixtures.scroll_with "c",
                        Ok (Fixtures.page (Some "c") [Fixtures.hit "1"; Fixtures.hit "2"]))]
                      eq_refl eq_refl eq_refl one_page_passes eq_refl eq_refl (le_n 2))).
    + reflexivity.
Defined.

Lemma scroll_data_initial_failure_witness :
  scroll_data Demo.no_repr 0 "http://localhost:9200" (VStr "test") (VStr "data")
    default_scroll (Demo.start Samples.refused Fixtures.empty_dir)
  = Some ([], Raise (OtherError "ConnectionError" Fixtures.search_test_data),
          after_get (Demo.start Samples.refused Fixtures.empty_dir)
            Fixtures.search_test_data
            (Raise (OtherError "ConnectionError" Fixtures.search_test_data)) 1).
Proof.
  apply (proj1 (scroll_data_initial_failure Demo.no_repr (Demo.cluster Samples.refused) 0
                  "http://localhost:9200" (VStr "test") (VStr "data") default_scroll
                  (Demo.start Samples.refused Fixtures.empty_dir)
                  Fixtures.search_test_data eq_refl)).
  reflexivity.
Defined.

(** ** Loops *)

Section LoopProperties.

Variable E : Env.

(** A loop stops at the first turn that raises. *)
Lemma for_each_raise {A : Type} (body : A -> M E unit) (before after : list A) (h : A)
  (e : exn) :
  forall w w1 w2 : World E,
    for_each before body w = Some (Ok tt, w1) ->
    body h w1 = Some (Raise e, w2) ->
    for_each (before ++ h :: after) body w = Some (Raise e, w2).
Proof.
  induction before as [|x before IH]; intros w w1 w2 Hb Hh.
  - cbn in Hb. injection Hb as <-. cbn [app for_each]. unfold bind. now rewrite Hh.
  - cbn [app for_each] in *. unfold bind in *.
    destruct (body x w) as [[[[]|e'] wx]|]; try discriminate.
    exact (IH wx w1 w2 Hb Hh).
Qed.

End LoopProperties.

(** ** The exporter and the importer, file by file *)



Section FileProperties.

Variable py_repr : value -> string.
Variable E : Env.
Variable cfg : Config.






Lemma make_url_put_mapping (u i t : string) :
  i <> "" -> t <> "" ->
  make_url py_repr u [VStr i; VStr "_mapping"; VStr t] [] = Ok (put_mapping_url u i t).
Proof.
  intros Hi Ht. unfold make_url, put_mapping_url, str_join. cbn [filter].
  rewrite (truthy_nonempty i Hi), (truthy_nonempty t Ht). reflexivity.
Qed.

(** [upload_mapping] once the path of the mapping file is known. *)
Lemma upload_mapping_run (i t fp : string) (w : World E) :
  configured cfg i -> t <> "" ->
  make_fp (dirname cfg) [VStr i; VStr t; VStr "mapping"] default_ext = Ok fp ->
  upload_mapping py_repr cfg (VStr t) w =
  if path_exists E fp (disk w) then
    match read_json E fp (disk w) with
    | Ok body =>
        let r := fst (http_put E (put_mapping_url (uri cfg) i t) body (server w)) in
        Some (match r with Ok _ => Ok tt | Raise e => Raise e end,
              after_put (after_load w fp) (put_mapping_url (uri cfg) i t) body r
                (snd (http_put E (put_mapping_url (uri cfg) i t) body (server w))))
    | Raise e => Some (Raise e, after_load w fp)
    end
  else Some (Raise (MappingFileNotFound py_repr (VStr t)), w).
Proof.
  intros [Hi Hne] Ht Hfp.
  unfold upload_mapping, bind, lift, os_path_exists, raise, file_load, log, session_put, ret,
    after_load, after_put.
  rewrite Hi. cbn [of_opt]. rewrite (make_url_put_mapping (uri cfg) i t Hne Ht), Hfp.
  destruct (path_exists E fp (disk w)); cbn [negb]; [|reflexivity].
  destruct (read_json E fp (disk w)) as [body|e]; [|reflexivity].
  cbn [server disk trace]. cbn zeta.
  destruct (http_put E (put_mapping_url (uri cfg) i t) body (server w)) as [[resp|e] s];
    reflexivity.
Qed.



End FileProperties.







(** ** The importer, file after file *)

Section ImportProperties.

Variable py_repr : value -> string.
Variable E : Env.
Variable cfg : Config.

Lemma bind_ret_unit (m : M E unit) (w : World E) : bind m (fun _ => ret tt) w = m w.
Proof.
  unfold bind, ret. destruct (m w) as [[[[]|e] w']|]; reflexivity.
Qed.

Lemma for_each_ext_in {A : Type} (f g : A -> M E unit) (l : list A) :
  (forall x, In x l -> forall w, f x w = g x w) ->
  forall w, for_each l f w = for_each l g w.
Proof.
  induction l as [|x l IH]; intros H w; [reflexivity|].
  cbn [for_each]. unfold bind. rewrite (H x (or_introl eq_refl) w).
  destruct (g x w) as [[[[]|e] w']|]; try reflexivity.
  apply IH. intros y Hy. apply H. now right.
Qed.

Lemma for_each_map {A B : Type} (h : A -> B) (f : B -> M E unit) (l : list A) (w : World E) :
  for_each (map h l) f w = for_each l (fun x => f (h x)) w.
Proof.
  revert w. induction l as [|x l IH]; intros w; [reflexivity|].
  cbn [map for_each]. unfold bind. destruct (f (h x) w) as [[[[]|e] w']|]; try reflexivity.
  apply IH.
Qed.

(** X15.  With the directory there and a type given, [upload] is the
    upload of the mapping followed by the upload of the documents, and an
    exception of the first is the outcome; so when the mapping file of the
    type is missing, [upload] fails with [IOError] before any request,
    whether or not the document file exists. *)
Theorem upload_type_needs_mapping (i t fp : string) (w : World E)
  (Hdir : dir_present cfg w) (Hc : configured cfg i) (Ht : t <> "")
  (Hfp : make_fp (dirname cfg) [VStr i; VStr t; VStr "mapping"] default_ext = Ok fp) :
  upload py_repr cfg (VStr t) w
  = bind (upload_mapping py_repr cfg (VStr t)) (fun _ => upload_data py_repr cfg (VStr t)) w /\
  (path_exists E fp (disk w) = false ->
   upload py_repr cfg (VStr t) w = Some (Raise (MappingFileNotFound py_repr (VStr t)), w)).
Proof.
  assert (Hup : upload py_repr cfg (VStr t) w
                = bind (upload_mapping py_repr cfg (VStr t))
                    (fun _ => upload_data py_repr cfg (VStr t)) w).
  { unfold upload. unfold bind at 1. rewrite (dir_ready_present E cfg w Hdir). cbn [negb].
    rewrite try_except_reraise. now rewrite (truthy_nonempty t Ht). }
  split; [exact Hup|]. intros Hex. rewrite Hup. unfold bind.
  now rewrite (upload_mapping_run py_repr E cfg i t fp w Hc Ht Hfp), Hex.
Qed.

(** The body of the scan on a file name of the exporter. *)
Lemma upload_file_exported (i t : string) (k : kind) (w : World E) :
  scannable i -> scannable t ->
  upload_file py_repr cfg (exported_name i t k) w
  = bind (upload_mapping py_repr cfg (VStr t)) (fun _ => upload_data py_repr cfg (VStr t)) w.
Proof.
  intros [Hi Hsi] [Ht Hst]. unfold upload_file, exported_name.
  destruct (exported_name_scanned i t k Hi Ht Hsi Hst) as [Hend Hscan].
  rewrite Hend. cbn [negb]. unfold bind at 1, lift. now rewrite Hscan.
Qed.

(** X16.  With the directory there and no type given, on a directory whose
    files are files of the exporter for index and type names without dot or
    slash, [upload] uploads the mapping and then the documents of the type
    of each file, file after file in the order of the listing: a type whose
    mapping file and document file are both there is uploaded twice. *)
Theorem upload_scan (d0 : string) (dirs : list string)
  (files : list (string * string * kind)) (w : World E) :
  dir_present cfg w ->
  dirname cfg = Some d0 ->
  os_walk E d0 (disk w)
    = [(d0, dirs, map (fun f => exported_name (fst (fst f)) (snd (fst f)) (snd f)) files)] ->
  Forall (fun f => scannable (fst (fst f)) /\ scannable (snd (fst f))) files ->
  upload py_repr cfg VNone w
  = for_each files
      (fun f => bind (upload_mapping py_repr cfg (VStr (snd (fst f))))
                  (fun _ => upload_data py_repr cfg (VStr (snd (fst f))))) w.
Proof.
  intros Hdir Hd Hwalk Hall. unfold upload. unfold bind at 1.
  rewrite (dir_ready_present E cfg w Hdir). cbn [negb truthy].
  rewrite try_except_reraise, Hd. unfold bind at 1, walk. rewrite Hwalk.
  cbn [for_each snd]. rewrite bind_ret_unit, for_each_map.
  apply for_each_ext_in. intros [[i t] k] Hin w0. cbn [fst snd].
  destruct (proj1 (Forall_forall _ _) Hall _ Hin) as [Hi Ht].
  now apply upload_file_exported.
Qed.

(** X17.  [upload_data] stops at the first hit whose upload raises: the
    hits before it have been sent, the exception is the outcome, and the
    hits after it are never looked at. *)
Theorem upload_data_stops (t fp : string) (before after : list value) (h : value)
  (e : exn) (w w1 w2 : World E) :
  make_fp (dirname cfg) [of_opt (index_name cfg); VStr t] default_ext = Ok fp ->
  path_exists E fp (disk w) = true ->
  read_json E fp (disk w) = Ok (VList (before ++ h :: after)) ->
  for_each before (upload_document py_repr cfg (VStr t)) (after_load w fp) = Some (Ok tt, w1) ->
  upload_document py_repr cfg (VStr t) h w1 = Some (Raise e, w2) ->
  upload_data py_repr cfg (VStr t) w = Some (Raise e, w2).
Proof.
  intros Hfp Hex Hread Hbefore Hh.
  rewrite (upload_data_run py_repr E cfg t fp w Hfp), Hex, Hread. cbn [py_iter].
  exact (for_each_raise E (upload_document py_repr cfg (VStr t)) before after h e
           (after_load w fp) w1 w2 Hbefore Hh).
Qed.

(** X18.  A hit whose [_id] counts as true and is not a string, such as a
    number, makes its upload raise [TypeError] while the URL is built: no
    request is issued for it. *)
Theorem upload_document_non_string_id (t : string) (kv : list (string * value))
  (v : value) (w : World E) :
  dict_lookup kv "_id" = Some v ->
  true_non_string v ->
  upload_document py_repr cfg (VStr t) (VDict kv) w = Some (Raise TypeError, w).
Proof.
  intros Hid Hv. unfold upload_document, bind, lift. rewrite !py_get_dict, Hid.
  change [of_opt (index_name cfg); VStr t; v]
    with ([of_opt (index_name cfg); VStr t] ++ v :: [])%list.
  rewrite (make_url_raises py_repr (uri cfg) [of_opt (index_name cfg); VStr t] [] v
             [("op_type", VStr "create")]); [reflexivity | | exact Hv].
  constructor; [|constructor; [|constructor]].
  - destruct (index_name cfg) as [i|]; [right; now exists i | now left].
  - right. now exists t.
Qed.

End ImportProperties.

Lemma upload_type_needs_mapping_witness :
  upload Demo.no_repr Fixtures.ep (VStr "data")
    (Demo.start (Fixtures.always VNone) Samples.numbered_dump)
  = Some (Raise (IOError "Mapping file of data does not exist."),
          Demo.start (Fixtures.always VNone) Samples.numbered_dump).
Proof.
  assert (Hc : configured Fixtures.ep "test") by (split; [reflexivity | discriminate]).
  assert (Ht : "data" <> "") by discriminate.
  assert (Hdir : dir_present Fixtures.ep
                   (Demo.start (Fixtures.always VNone) Samples.numbered_dump)).
  { exists "/tmp/fake". split; [reflexivity|]. split; [discriminate | reflexivity]. }
  exact (proj2 (upload_type_needs_mapping Demo.no_repr (Demo.cluster (Fixtures.always VNone))
                  Fixtures.ep "test" "data" "/tmp/fake/test.data.mapping.json"
                  (Demo.start (Fixtures.always VNone) Samples.numbered_dump)
                  Hdir Hc Ht eq_refl) eq_refl).
Defined.

Lemma test_scannable : scannable "test" /\ scannable "data".
Proof.
  repeat split; (discriminate || reflexivity).
Defined.

Lemma upload_scan_witness :
  upload Demo.no_repr Fixtures.ep VNone
    (Demo.start (Fixtures.always VNone) Fixtures.twice_dump)
  = for_each [("test", "data", KMapping); ("test", "data", KDocument)]
      (fun f => bind (upload_mapping Demo.no_repr Fixtures.ep (VStr (snd (fst f))))
                  (fun _ => upload_data Demo.no_repr Fixtures.ep (VStr (snd (fst f)))))
      (Demo.start (Fixtures.always VNone) Fixtures.twice_dump).
Proof.
  apply (upload_scan Demo.no_repr (Demo.cluster (Fixtures.always VNone)) Fixtures.ep
           "/tmp/fake" [] [("test", "data", KMapping); ("test", "data", KDocument)]
           (Demo.start (Fixtures.always VNone) Fixtures.twice_dump)).
  - exists "/tmp/fake". split; [reflexivity|]. split; [discriminate | reflexivity].
  - reflexivity.
  - reflexivity.
  - repeat constructor; apply test_scannable.
Defined.

Lemma upload_data_stops_witness :
  upload_data Demo.no_repr Fixtures.ep (VStr "data")
    (Demo.start (Fixtures.always VNone) Samples.numbered_dump)
  = Some (Raise TypeError,
          after_put
            (after_load (Demo.start (Fixtures.always VNone) Samples.numbered_dump)
               "/tmp/fake/test.data.json")
            "http://localhost:9200/test/data/1?op_type=create" (VDict [("n", VStr "1")])
            (Ok (201%Z, "{}")) 1).
Proof.
  apply (upload_data_stops Demo.no_repr (Demo.cluster (Fixtures.always VNone)) Fixtures.ep
           "data" "/tmp/fake/test.data.json" [Fixtures.hit "1"] [Fixtures.hit "3"]
           (VDict [("_id", VInt 7); ("_source", VDict [])]) TypeError
           (Demo.start (Fixtures.always VNone) Samples.numbered_dump)
           (after_put
              (after_load (Demo.start (Fixtures.always VNone) Samples.numbered_dump)
                 "/tmp/fake/test.data.json")
              "http://localhost:9200/test/data/1?op_type=create" (VDict [("n", VStr "1")])
              (Ok (201%Z, "{}")) 1));
    reflexivity.
Defined.

Lemma upload_document_non_string_id_witness :
  upload_document Demo.no_repr Fixtures.ep (VStr "data")
    (VDict [("_id", VInt 7); ("_source", VDict [])])
    (Demo.start (Fixtures.always VNone) Samples.numbered_dump)
  = Some (Raise TypeError, Demo.start (Fixtures.always VNone) Samples.numbered_dump).
Proof.
  apply (upload_document_non_string_id Demo.no_repr (Demo.cluster (Fixtures.always VNone))
           Fixtures.ep "data" [("_id", VInt 7); ("_source", VDict [])] (VInt 7)).
  - reflexivity.
  - split; [reflexivity | discriminate].
Defined.

(** ** The mapping reader, when things go wrong *)

Lemma dict_lookup_app_in (d1 d2 : list (string * value)) (k : string) :
  In k (dict_keys d1) -> dict_lookup (d1 ++ d2) k = dict_lookup d1 k.
Proof.
  induction d1 as [|[k' v] d1 IH]; intros Hin; [destruct Hin|].
  cbn [app dict_lookup]. destruct (String.eqb k' k) eqn:Heq; [reflexivity|].
  apply IH. destruct Hin as [Hk|Hin]; [|exact Hin].
  cbn in Hk. subst k'. now rewrite String.eqb_refl in Heq.
Qed.

Lemma dict_lookup_app_notin (d1 d2 : list (string * value)) (k : string) :
  ~ In k (dict_keys d1) -> dict_lookup (d1 ++ d2) k = dict_lookup d2 k.
Proof.
  induction d1 as [|[k' v] d1 IH]; intros Hnot; [reflexivity|].
  cbn [app dict_lookup]. destruct (String.eqb k' k) eqn:Heq.
  - apply String.eqb_eq in Heq. subst k'. destruct Hnot. now left.
  - apply IH. intros Hin. apply Hnot. now right.
Qed.

Lemma run_seq_assoc {A : Type} (r1 r2 r3 : run A) :
  run_seq r1 (run_seq r2 r3) = run_seq (run_seq r1 r2) r3.
Proof.
  unfold run_seq. destruct r1 as [y1 [e1|]], r2 as [y2 [e2|]]; cbn [yielded ending];
    try reflexivity.
  now rewrite app_assoc.
Qed.

Lemma index_records_app (data : value) (l1 l2 : list value) :
  index_records data (l1 ++ l2)
  = run_seq (index_records data l1) (index_records data l2).
Proof.
  induction l1 as [|i l1 IH]; cbn [app index_records].
  - unfold run_seq. cbn. now destruct (index_records data l2).
  - destruct (entry <- py_getitem data i ;;
              mappings <- py_getitem entry (VStr "mappings") ;;
              ms <- py_iter mappings ;; Ok (mappings, ms))%result as [[mappings ms]|e];
      [|reflexivity].
    now rewrite IH, run_seq_assoc.
Qed.

Lemma flat_map_ext_in {A B : Type} (f g : A -> list B) (l : list A) :
  (forall a, In a l -> f a = g a) -> flat_map f l = flat_map g l.
Proof.
  induction l as [|a l IH]; intros H; [reflexivity|].
  cbn [flat_map]. rewrite (H a (or_introl eq_refl)), IH; [reflexivity|].
  intros b Hb. apply H. now right.
Qed.

Lemma mappings_of_app_in (d1 d2 : list (string * value)) (i : string) :
  In i (dict_keys d1) -> mappings_of (d1 ++ d2) i = mappings_of d1 i.
Proof.
  intros Hin. unfold mappings_of. now rewrite (dict_lookup_app_in d1 d2 i Hin).
Qed.

(** X19.  The loops of [query_mappings] stop at the first index whose
    entry has no [mappings] key: the records of the indices before it, in a
    document that is well formed up to there, have been yielded, then
    [KeyError('mappings')] is raised and the indices after it are never
    looked at. *)
Theorem mapping_records_stop (d1 d2 e : list (string * value)) (i : string) :
  raw_mapping_document d1 ->
  ~ In i (dict_keys d1) ->
  dict_lookup e "mappings" = None ->
  mapping_records (VDict (d1 ++ (i, VDict e) :: d2))
  = {| yielded := spec_mapping_records d1;
       ending := Some (KeyError (VStr "mappings")) |}.
Proof.
  intros Hraw Hnot He. unfold mapping_records. cbn [py_iter].
  unfold dict_keys. rewrite map_app, map_app. cbn [map fst]. fold (dict_keys d1).
  rewrite index_records_app.
  rewrite (index_records_keys (d1 ++ (i, VDict e) :: d2) (dict_keys d1)).
  - cbn [index_records py_getitem]. rewrite (dict_lookup_app_notin d1 _ i Hnot).
    cbn [dict_lookup]. rewrite String.eqb_refl. cbn [rbind py_getitem]. rewrite He.
    cbn [rbind]. unfold run_seq, run_fail. cbn [yielded ending]. rewrite app_nil_r.
    f_equal. unfold spec_mapping_records. apply flat_map_ext_in. intros a Ha.
    now rewrite (mappings_of_app_in d1 _ a Ha).
  - intros a Ha. destruct (Hraw a Ha) as (ea & ms & Hd & Hm & Hms).
    exists ea, ms. split; [|split; [exact Hm | exact Hms]].
    now rewrite (dict_lookup_app_in d1 _ a Ha).
Qed.

Section ReaderFailures.

Variable py_repr : value -> string.
Variable E : Env.
Variable cfg : Config.

(** X20.  [query_from_url] issues one GET, to the mapping URL; an
    exception of the transport comes out unchanged, and a body that is
    neither an object, a list nor a string (a number, a boolean, null)
    raises [TypeError] on the test for an [error] key. *)
Theorem query_from_url_failures (w : World E) :
  (forall e s,
     http_get E (mapping_url cfg) (server w) = (Raise e, s) ->
     query_from_url py_repr cfg w
     = Some (Raise e, after_get w (mapping_url cfg) (Raise e) s)) /\
  (forall body s,
     http_get E (mapping_url cfg) (server w) = (Ok body, s) ->
     (forall d, body <> VDict d) -> (forall l, body <> VList l) ->
     (forall t, body <> VStr t) ->
     query_from_url py_repr cfg w
     = Some (Raise TypeError, after_get w (mapping_url cfg) (Ok body) s)).
Proof.
  split.
  - intros e s Hget. unfold query_from_url, bind, lift, session_get, after_get.
    now rewrite make_url_mapping, Hget.
  - intros body s Hget Hd Hl Hs.
    rewrite (query_from_url_answered py_repr E cfg w body s Hget). cbn zeta.
    destruct body; try reflexivity.
    + now destruct (Hs s0).
    + now destruct (Hl l).
    + now destruct (Hd d).
Qed.

(** X21.  When the mapping query fails, [dump_mapping] and [dump_data]
    fail with the same exception, in the world the query left: no file is
    opened and no search is started. *)
Theorem dump_fails_with_query (w w1 : World E) (e : exn) (fuel : nat) :
  query_from_url py_repr cfg w = Some (Raise e, w1) ->
  dump_mapping py_repr cfg w = Some (Raise e, w1) /\
  dump_data py_repr cfg fuel w = Some (Raise e, w1).
Proof.
  intros Hq. unfold dump_mapping, dump_data, for_gen.
  rewrite query_mappings_run, Hq. split; reflexivity.
Qed.

End ReaderFailures.

Lemma mapping_records_stop_witness :
  mapping_records
    (VDict (Fixtures.test_mappings ++ ("other", VDict []) :: Fixtures.test_mappings))
  = {| yielded := spec_mapping_records Fixtures.test_mappings;
       ending := Some (KeyError (VStr "mappings")) |}.
Proof.
  apply (mapping_records_stop Fixtures.test_mappings Fixtures.test_mappings [] "other").
  - exact test_mappings_raw.
  - cbn. intros [H|[]]. discriminate.
  - reflexivity.
Defined.

Lemma query_from_url_failures_witness :
  query_from_url Demo.no_repr Fixtures.ep
    (Demo.start (Fixtures.always VNone) Fixtures.empty_dir)
  = Some (Raise TypeError,
          after_get (Demo.start (Fixtures.always VNone) Fixtures.empty_dir)
            "http://localhost:9200/test/_mapping" (Ok VNone) 1).
Proof.
  apply (proj2 (query_from_url_failures Demo.no_repr (Demo.cluster (Fixtures.always VNone))
                  Fixtures.ep (Demo.start (Fixtures.always VNone) Fixtures.empty_dir))
           VNone 1 eq_refl); discriminate.
Defined.

Lemma dump_fails_with_query_witness :
  dump_mapping Demo.no_repr Fixtures.ep (Demo.start Samples.refused Fixtures.empty_dir)
  = Some (Raise (OtherError "ConnectionError" "http://localhost:9200/test/_mapping"),
          after_get (Demo.start Samples.refused Fixtures.empty_dir)
            "http://localhost:9200/test/_mapping"
            (Raise (OtherError "ConnectionError" "http://localhost:9200/test/_mapping")) 1) /\
  dump_data Demo.no_repr Fixtures.ep 3 (Demo.start Samples.refused Fixtures.empty_dir)
  = Some (Raise (OtherError "ConnectionError" "http://localhost:9200/test/_mapping"),
          after_get (Demo.start Samples.refused Fixtures.empty_dir)
            "http://localhost:9200/test/_mapping"
            (Raise (OtherError "ConnectionError" "http://localhost:9200/test/_mapping")) 1).
Proof.
  apply (dump_fails_with_query Demo.no_repr (Demo.cluster Samples.refused) Fixtures.ep
           (Demo.start Samples.refused Fixtures.empty_dir)).
  reflexivity.
Defined.
